(** * DB-Notifier: the snapshot-diff and report-aggregation engine

    A shallow embedding of [src/core/inventory_tracker.py] (class
    [InventoryTracker]) and [src/core/report_generator.py] (class
    [ReportGenerator]), followed by the properties of the specification
    that concern them.

    Conventions of the embedding.
    - A row of a snapshot is a Python [dict]; it is a [gmap string value].
    - The cells that the data source delivers are integers, text and NULL.
    - Numbers are exact: a pandas [float64] column is read as a column of
      rationals, and the literals [1.05] and [0.95] as [105/100] and
      [95/100].  For article counts (naturals far below [2^47]) the
      comparison against the floating-point product gives the same answer
      as the exact one: the relative error of both literals is below
      [2^-54], so a product that is an integer is computed exactly, and a
      product that is not an integer lies at least [1/20] from every
      integer.
    - A pandas frame built from a list of dicts has one column per key that
      occurs in some dict; a dict without that key has NaN in that column.
      Column dtype inference is not modelled: a cell keeps the Python value
      it holds.
    - A calendar date is its day number; the string ['%Y-%m-%d'] that
      names a day in file names and dict keys is identified with it.
    - Clock readings ([datetime.now()]), log lines and the JSON files that
      the methods write are not part of the returned values and are left
      out; what a method reads from the snapshot store is an argument. *)

From Stdlib Require Import ZArith QArith Qabs Ascii DecimalString DecimalPos DecimalZ.
From stdpp Require Import gmap strings list sorting.

Local Open Scope string_scope.
Local Open Scope Z_scope.
Local Open Scope list_scope.
#[local] Set Warnings "-clear-no-such-hyp".

(** ** Python values, dicts, exceptions *)

Inductive value :=
  | VNone
  | VInt (z : Z)
  | VStr (s : string).

#[global] Instance value_eq_dec : EqDecision value.
Proof. solve_decision. Defined.

(** One row of a snapshot, as the data source returns it. *)
Abbreviation record := (gmap string value).

(** [item.get(k)] and [item.get(k, d)]. *)
Definition get (item : record) (k : string) : value :=
  default VNone (item !! k).

Definition get_default (item : record) (k : string) (d : value) : value :=
  default d (item !! k).

(** Python's [==] on the values above. *)
Definition py_eq (a b : value) : bool := bool_decide (a = b).

(** The exceptions that the modelled code can raise. *)
Inductive exn :=
  | KeyError (missing : list string)
  | TypeError
  | LookupError.

Inductive result (A : Type) :=
  | Ok (a : A)
  | Raise (e : exn).
Arguments Ok {A} a.
Arguments Raise {A} e.

#[global] Instance result_bind : MBind result := λ A B k m,
  match m with
  | Ok a => k a
  | Raise e => Raise e
  end.

#[global] Instance result_ret : MRet result := λ A a, Ok a.

(** A loop whose body may raise, collecting the results. *)
Fixpoint traverse {A B} (f : A → result B) (l : list A) : result (list B) :=
  match l with
  | [] => Ok []
  | a :: l' => b ← f a; bs ← traverse f l'; Ok (b :: bs)
  end.

(** An insertion-ordered Python [dict] whose order matters
    ([list(d.keys())], [d.values()]). *)
Section PyDict.
Context {K V : Type} `{EqDecision K}.

Definition pydict := list (K * V).

Fixpoint dict_set (k : K) (v : V) (d : pydict) : pydict :=
  match d with
  | [] => [(k, v)]
  | (k', v') :: d' =>
      if decide (k' = k) then (k, v) :: d' else (k', v') :: dict_set k v d'
  end.

Fixpoint dict_get (k : K) (d : pydict) : option V :=
  match d with
  | [] => None
  | (k', v') :: d' => if decide (k' = k) then Some v' else dict_get k d'
  end.

Definition dict_keys (d : pydict) : list K := d.*1.
Definition dict_values (d : pydict) : list V := d.*2.
End PyDict.
Arguments pydict : clear implicits.

(** ** The part of pandas that the code uses *)

Module Pandas.

(** A cell of a frame; [None] is NaN. *)
Definition cell := option value.

(** [pd.DataFrame(data)] keeps the rows; its columns are the keys that
    occur in some row. *)
Definition has_column (df : list record) (c : string) : bool :=
  existsb (λ r, bool_decide (is_Some (r !! c))) df.

Definition missing_columns (df : list record) (cols : list string)
  : list string :=
  List.filter (λ c, negb (has_column df c)) cols.

(** [df[c]] and [df[[c1, ..., cn]]] raise KeyError on an absent column. *)
Definition require_columns (df : list record) (cols : list string)
  : result unit :=
  match missing_columns df cols with
  | [] => Ok tt
  | m => Raise (KeyError m)
  end.

(** [.astype(str)], cell by cell. *)
Definition astype_str (c : cell) : string :=
  match c with
  | None => "nan"
  | Some VNone => "None"
  | Some (VInt z) => NilZero.string_of_int (Z.to_int z)
  | Some (VStr s) => s
  end.

(** [.fillna(0)]. *)
Definition fillna0 (c : cell) : value :=
  match c with
  | None | Some VNone => VInt 0
  | Some v => v
  end.

(** [a - b] on two filled cells. *)
Definition sub (a b : value) : result Z :=
  match a, b with
  | VInt x, VInt y => Ok (x - y)
  | _, _ => Raise TypeError
  end.

(** [.replace(0, 1)]. *)
Definition replace_0_1 (v : value) : value :=
  if py_eq v (VInt 0) then VInt 1 else v.

(** [a / b * 100] on an integer and a filled cell. *)
Definition percent_of (a : Z) (b : value) : result Q :=
  match b with
  | VInt y => Ok (inject_Z a / inject_Z y * 100)%Q
  | _ => Raise TypeError
  end.

(** [cell == s] in a boolean mask. *)
Definition cell_eq_str (c : cell) (s : string) : bool :=
  bool_decide (c = Some (VStr s)).

(** A row of [pd.merge(left, right, on=key)]: the key and the row of each
    side that it comes from; the columns of an absent side are NaN. *)
Record joined (L R : Type) := Joined {
  j_key : string;
  j_left : option L;
  j_right : option R
}.
Arguments Joined {L R} _ _ _.
Arguments j_key {L R} _.
Arguments j_left {L R} _.
Arguments j_right {L R} _.

Definition str_le (a b : string) : Prop := String.leb a b = true.

#[global] Instance str_le_dec a b : Decision (str_le a b).
Proof. unfold str_le. apply _. Defined.

Section Merge.
Context {L R : Type} (kl : L → string) (kr : R → string).

Definition rows_with {A} (k : A → string) (key : string) (l : list A)
  : list A :=
  List.filter (λ x, String.eqb (k x) key) l.

(** The rows of one key: the product of the two sides, or one side
    alone against NaN. *)
Definition join_group (ls : list L) (rs : list R) (key : string)
  : list (joined L R) :=
  match rows_with kl key ls, rows_with kr key rs with
  | [], ys => (λ y, Joined key None (Some y)) <$> ys
  | xs, [] => (λ x, Joined key (Some x) None) <$> xs
  | xs, ys =>
      x ← xs; (λ y, Joined key (Some x) (Some y)) <$> ys
  end.

(** The keys of an outer merge: the union of both sides, sorted. *)
Definition outer_keys (ls : list L) (rs : list R) : list string :=
  merge_sort str_le (remove_dups ((kl <$> ls) ++ (kr <$> rs))).

(** [pd.merge(left, right, on='key', how='outer')]. *)
Definition merge_outer (ls : list L) (rs : list R) : list (joined L R) :=
  key ← outer_keys ls rs; join_group ls rs key.
End Merge.

(** [pd.merge(left, right, on=col, how='inner')] on a column of cells:
    every left row against every right row with the same cell, in the
    order of the left rows. *)
Definition merge_inner {L R} (kl : L → cell) (kr : R → cell)
    (ls : list L) (rs : list R) : list (L * R) :=
  x ← ls; (λ y, (x, y)) <$> List.filter (λ y, bool_decide (kr y = kl x)) rs.

End Pandas.

(** ** Lines that both classes contain verbatim *)

Module Common.
Import Pandas.

(** [df['artikel_id'].astype(str) + '_' + df['lager_id'].astype(str)],
    for one row. *)
Definition key_of (r : record) : string :=
  astype_str (r !! "artikel_id") +:+ "_" +:+ astype_str (r !! "lager_id").

(** A merged row after [fillna], with its [change] and [change_percent]
    columns. *)
Record change_row (L R : Type) := ChangeRow {
  merged_row : joined L R;
  bestand_current : value;
  bestand_previous : value;
  change : Z;
  change_percent : Q
}.
Arguments ChangeRow {L R} _ _ _ _ _.
Arguments merged_row {L R} _.
Arguments bestand_current {L R} _.
Arguments bestand_previous {L R} _.
Arguments change {L R} _.
Arguments change_percent {L R} _.

(** [fillna(0)] on both quantity columns, then
    [change = bestand_current - bestand_previous] and
    [change_percent = change / bestand_previous.replace(0, 1) * 100]. *)
Definition with_changes {L R} (bl : L → cell) (br : R → cell)
    (j : joined L R) : result (change_row L R) :=
  let bc := fillna0 (j_left j ≫= bl) in
  let bp := fillna0 (j_right j ≫= br) in
  ch ← sub bc bp;
  pct ← percent_of ch (replace_0_1 bp);
  Ok (ChangeRow j bc bp ch pct).

(** [abs(change_percent) >= self.highlight_threshold]. *)
Definition significant {L R} (highlight_threshold : Z)
    (row : change_row L R) : bool :=
  Qle_bool (inject_Z highlight_threshold) (Qabs (change_percent row)).

(** The two sides of the status merge and a row of its result. *)
Record status_row := StatusRow {
  sr_artikel_id : cell;
  sr_artikelnummer : cell;
  sr_bezeichnung : cell;
  sr_status : cell
}.

Record previous_status_row := PreviousStatusRow {
  ps_artikel_id : cell;
  ps_status : cell
}.

Record deactivation := Deactivation {
  artikel_id : cell;
  artikelnummer : cell;
  bezeichnung : cell;
  status_current : cell;
  status_previous : cell
}.

Definition current_status (r : record) : status_row :=
  StatusRow (r !! "artikel_id") (r !! "artikelnummer")
            (r !! "bezeichnung") (r !! "status").

Definition previous_status (r : record) : previous_status_row :=
  PreviousStatusRow (r !! "artikel_id") (r !! "status").

Definition merged_status (p : status_row * previous_status_row)
  : deactivation :=
  Deactivation (sr_artikel_id p.1) (sr_artikelnummer p.1)
               (sr_bezeichnung p.1) (sr_status p.1) (ps_status p.2).

(** The inner merge on [artikel_id] and the mask
    [(status_previous == 'aktiv') & (status_current == 'inaktiv')]. *)
Definition deactivated (current_data previous_data : list record)
  : list deactivation :=
  let merged :=
    merged_status <$>
      merge_inner sr_artikel_id ps_artikel_id
        (current_status <$> current_data)
        (previous_status <$> previous_data) in
  List.filter
    (λ m, cell_eq_str (status_previous m) "aktiv"
          && cell_eq_str (status_current m) "inaktiv")
    merged.

(** [item.get('bestand', 0) == 0 and item.get('status') == 'aktiv']. *)
Definition is_zero_inventory (item : record) : bool :=
  py_eq (get_default item "bestand" (VInt 0)) (VInt 0)
  && py_eq (get item "status") (VStr "aktiv").

(** [item.get('status') == 'aktiv']. *)
Definition is_active (item : record) : bool :=
  py_eq (get item "status") (VStr "aktiv").
End Common.

(** ** The clock

    A reading of [datetime.now()] is a number of microseconds; a
    [timedelta(days=n)] is [n] days of them. *)

Module Clock.
Definition microseconds_per_day : Z := 86400000000.

(** The day that [strftime('%Y-%m-%d')] names. *)
Definition day_of (t : Z) : Z := t `div` microseconds_per_day.

(** [datetime.strptime(date_str, '%Y-%m-%d')]: the start of the day. *)
Definition midnight (day : Z) : Z := day * microseconds_per_day.

(** [t - timedelta(days=n)]. *)
Definition minus_days (t n : Z) : Z := t - n * microseconds_per_day.
End Clock.

(** ** [class InventoryTracker] *)

Module InventoryTracker.
Import Pandas Common.

Record current_row := CurrentRow {
  cur_key : string;
  cur_artikelnummer : cell;
  cur_bestand : cell;
  cur_bezeichnung : cell
}.

Record previous_row := PreviousRow {
  prev_key : string;
  prev_bestand : cell
}.

Definition select_current (r : record) : current_row :=
  CurrentRow (key_of r) (r !! "artikelnummer") (r !! "bestand")
             (r !! "bezeichnung").

Definition select_previous (r : record) : previous_row :=
  PreviousRow (key_of r) (r !! "bestand").

Definition required_columns : list string :=
  ["artikel_id"; "artikelnummer"; "bestand"; "lager_id"].

(** The returned dict: [{}] when the guard on the columns fails,
    otherwise the counts and the significant rows. *)
Inductive change_report :=
  | EmptyDict
  | ChangeReport (total_articles : nat) (significant_changes : nat)
      (details : list (change_row current_row previous_row)).

(** The merged frame with its [change] columns. *)
Definition merged_changes (current_data previous_data : list record)
  : result (list (change_row current_row previous_row)) :=
  traverse (with_changes cur_bestand prev_bestand)
    (merge_outer cur_key prev_key
       (select_current <$> current_data)
       (select_previous <$> previous_data)).

Definition compare_inventory_levels (highlight_threshold : Z)
    (current_data previous_data : list record) : result change_report :=
  if negb (forallb (has_column current_data) required_columns)
     || negb (forallb (has_column previous_data) required_columns)
  then Ok EmptyDict
  else
    require_columns current_data ["artikelnummer"; "bestand"; "bezeichnung"];;
    require_columns previous_data ["bestand"];;
    merged ← merged_changes current_data previous_data;
    let significant_changes :=
      List.filter (significant highlight_threshold) merged in
    Ok (ChangeReport (length current_data) (length significant_changes)
          significant_changes).

(** The loop that appends to [zero_inventory]. *)
Definition detect_zero_inventory (inventory_data : list record)
  : list record :=
  fold_left
    (λ zero_inventory item,
       if is_zero_inventory item then zero_inventory ++ [item]
       else zero_inventory)
    inventory_data [].

Definition detect_deactivations (current_data previous_data : list record)
  : result (list deactivation) :=
  if negb (has_column current_data "artikel_id")
     || negb (has_column current_data "status")
     || negb (has_column previous_data "artikel_id")
     || negb (has_column previous_data "status")
  then Ok []
  else
    require_columns current_data
      ["artikel_id"; "artikelnummer"; "bezeichnung"; "status"];;
    require_columns previous_data ["artikel_id"; "status"];;
    Ok (deactivated current_data previous_data).

(** The snapshot store: the [data] list of [inventory_<date>.json], by
    day number.  A date without a readable file yields [[]]. *)
Definition retrieve_historical_data (store : gmap Z (list record))
    (date : Z) : list record :=
  default [] (store !! date).
(** [_clean_old_data]: the loop over the files [inventory_<date>.json] of
    the data directory, with [now] the reading of the clock; the store
    that is left and the number of files deleted.  The other files of the
    directory do not start with [inventory_] or carry no date after it,
    and are skipped. *)
Definition _clean_old_data (max_data_age now : Z)
    (store : gmap Z (list record)) : gmap Z (list record) * nat :=
  let cutoff_date := Clock.minus_days now max_data_age in
  map_fold
    (λ file_date _ '(store, deleted_count),
       if decide (Clock.midnight file_date < cutoff_date)
       then (delete file_date store, S deleted_count)
       else (store, deleted_count))
    (store, 0%nat) store.

(** [store_daily_data]: writes the file of the day of [now], then cleans
    up with the clock at [now_clean]. *)
Definition store_daily_data (max_data_age now now_clean : Z)
    (inventory_data : list record) (store : gmap Z (list record))
  : bool * gmap Z (list record) :=
  let store := <[Clock.day_of now := inventory_data]> store in
  (true, (_clean_old_data max_data_age now_clean store).1).

(** [track_daily_inventory], on the rows that [_query_current_inventory]
    returned.  [now], [now_store] and [now_clean] are the readings of the
    clock for yesterday's date, for the file name and for the clean-up.
    An exception of a comparison is caught and gives [False]. *)
Definition track_daily_inventory (highlight_threshold max_data_age : Z)
    (now now_store now_clean : Z) (inventory_data : list record)
    (store : gmap Z (list record)) : bool * gmap Z (list record) :=
  match inventory_data with
  | [] => (false, store)
  | _ =>
      let yesterday := Clock.minus_days now 1 in
      let yesterday_data :=
        retrieve_historical_data store (Clock.day_of yesterday) in
      let compared :=
        match yesterday_data with
        | [] => Ok tt
        | _ =>
            compare_inventory_levels highlight_threshold
              inventory_data yesterday_data;;
            detect_deactivations inventory_data yesterday_data;;
            Ok tt
        end in
      match compared with
      | Raise _ => (false, store)
      | Ok _ =>
          let _ := detect_zero_inventory inventory_data in
          (true,
           (store_daily_data max_data_age now_store now_clean
              inventory_data store).2)
      end
  end.
End InventoryTracker.

(** ** [class ReportGenerator] *)

Module ReportGenerator.
Import Pandas Common.

Record current_row := CurrentRow {
  cur_key : string;
  cur_artikelnummer : cell;
  cur_bezeichnung : cell;
  cur_bestand : cell;
  cur_status : cell
}.

Record previous_row := PreviousRow {
  prev_key : string;
  prev_bestand : cell;
  prev_status : cell
}.

Definition select_current (r : record) : current_row :=
  CurrentRow (key_of r) (r !! "artikelnummer") (r !! "bezeichnung")
             (r !! "bestand") (r !! "status").

Definition select_previous (r : record) : previous_row :=
  PreviousRow (key_of r) (r !! "bestand") (r !! "status").

Record changes := Changes {
  total_items : nat;
  increased : nat;
  decreased : nat;
  unchanged : nat;
  significant_changes : list (change_row current_row previous_row)
}.

(** The merged frame with its [change] columns. *)
Definition merged_changes (current_data previous_data : list record)
  : result (list (change_row current_row previous_row)) :=
  traverse (with_changes cur_bestand prev_bestand)
    (merge_outer cur_key prev_key
       (select_current <$> current_data)
       (select_previous <$> previous_data)).

Definition _calculate_changes (highlight_threshold : Z)
    (current_data previous_data : list record) : result changes :=
  require_columns current_data ["artikel_id"];;
  require_columns current_data ["lager_id"];;
  require_columns previous_data ["artikel_id"];;
  require_columns previous_data ["lager_id"];;
  require_columns current_data
    ["artikelnummer"; "bezeichnung"; "bestand"; "status"];;
  require_columns previous_data ["bestand"; "status"];;
  merged ← merged_changes current_data previous_data;
  Ok (Changes
        (length merged)
        (length (List.filter (λ m, 0 <? change m) merged))
        (length (List.filter (λ m, change m <? 0) merged))
        (length (List.filter (λ m, change m =? 0) merged))
        (List.filter (significant highlight_threshold) merged)).

Definition _detect_deactivations (current_data previous_data : list record)
  : result (list deactivation) :=
  require_columns current_data
    ["artikel_id"; "artikelnummer"; "bezeichnung"; "status"];;
  require_columns previous_data ["artikel_id"; "status"];;
  Ok (deactivated current_data previous_data).

(** An entry of [report['zero_inventory']]. *)
Record zero_entry := ZeroEntry {
  ze_artikel_id : value;
  ze_artikelnummer : value;
  ze_bezeichnung : value;
  ze_lager_id : value;
  ze_lager_name : value
}.

Definition zero_entry_of (item : record) : zero_entry :=
  ZeroEntry (get item "artikel_id") (get item "artikelnummer")
            (get item "bezeichnung") (get item "lager_id")
            (get item "lager_name").

(** The daily report; an absent key of the dict is [None]. *)
Record daily_report := DailyReport {
  date : Z;
  total_articles : nat;
  active_articles : nat;
  zero_inventory : list zero_entry;
  report_changes : option changes;
  report_deactivations : option (list deactivation)
}.

(** The calls that [generate_daily_report] makes, in order. *)
Inductive call :=
  | call_retrieve_historical_data (date : Z)
  | call_calculate_changes
  | call_detect_deactivations.

(** [generate_daily_report]: the returned report ([None] also when an
    exception is caught) and the calls made on the way. *)
Definition generate_daily_report (highlight_threshold : Z)
    (store : gmap Z (list record)) (report_date : Z)
  : option daily_report * list call :=
  let current_data :=
    InventoryTracker.retrieve_historical_data store report_date in
  let log := [call_retrieve_historical_data report_date] in
  match current_data with
  | [] => (None, log)
  | _ =>
      let previous_date := report_date - 1 in
      let previous_data :=
        InventoryTracker.retrieve_historical_data store previous_date in
      let log := log ++ [call_retrieve_historical_data previous_date] in
      let zero_inventory :=
        fold_left
          (λ acc item,
             if is_zero_inventory item then acc ++ [zero_entry_of item]
             else acc)
          current_data [] in
      let report :=
        DailyReport report_date (length current_data)
          (length (List.filter is_active current_data))
          zero_inventory None None in
      match previous_data with
      | [] => (Some report, log)
      | _ =>
          let log := log ++ [call_calculate_changes] in
          match _calculate_changes highlight_threshold
                  current_data previous_data with
          | Raise _ => (None, log)
          | Ok ch =>
              let log := log ++ [call_detect_deactivations] in
              match _detect_deactivations current_data previous_data with
              | Raise _ => (None, log)
              | Ok de =>
                  (Some (DailyReport report_date (length current_data)
                           (length (List.filter is_active current_data))
                           zero_inventory (Some ch) (Some de)),
                   log)
              end
          end
      end
  end.

Inductive trend := stable | increasing | decreasing.

Record trend_summary := TrendSummary {
  dates : list Z;
  ts_total_articles : pydict Z nat;
  ts_active_articles : pydict Z nat;
  ts_zero_inventory : pydict Z nat;
  avg_articles_per_day : Q;
  ts_trend : trend
}.

Definition Qltb (a b : Q) : bool :=
  match Qcompare a b with
  | Lt => true
  | _ => false
  end.

(** [d[k]] on a dict read by key. *)
Definition dict_item (k : Z) (d : pydict Z nat) : result nat :=
  match dict_get k d with
  | Some v => Ok v
  | None => Raise LookupError
  end.

(** The comparison of the last active count with the first. *)
Definition trend_of (active_first active_last : nat) : trend :=
  if Qltb (inject_Z (Z.of_nat active_first) * (105 # 100))
          (inject_Z (Z.of_nat active_last))
  then increasing
  else if Qltb (inject_Z (Z.of_nat active_last))
               (inject_Z (Z.of_nat active_first) * (95 # 100))
  then decreasing
  else stable.

Definition _generate_trend_summary
    (inventory_data : pydict Z (list record)) : result trend_summary :=
  let dates := dict_keys inventory_data in
  let total_articles :=
    fold_left (λ d '(date_str, data), dict_set date_str (length data) d)
      inventory_data [] in
  let active_articles :=
    fold_left
      (λ d '(date_str, data),
         dict_set date_str (length (List.filter is_active data)) d)
      inventory_data [] in
  let zero_inventory :=
    fold_left
      (λ d '(date_str, data),
         dict_set date_str (length (List.filter is_zero_inventory data)) d)
      inventory_data [] in
  let avg :=
    match total_articles with
    | [] => 0%Q
    | _ =>
        (inject_Z (Z.of_nat (foldr Nat.add 0%nat (dict_values total_articles)))
         / inject_Z (Z.of_nat (length total_articles)))%Q
    end in
  trend ←
    (if (1 <? length dates)%nat then
       match dates !! 0%nat, last dates with
       | Some first_date, Some last_date =>
           active_first ← dict_item first_date active_articles;
           active_last ← dict_item last_date active_articles;
           Ok (trend_of active_first active_last)
       | _, _ => Raise LookupError
       end
     else Ok stable);
  Ok (TrendSummary dates total_articles active_articles zero_inventory
        avg trend).

(** A chart: the name of its file (without the time stamp) and the
    series that is plotted. *)
Record chart := Chart {
  chart_name : string;
  chart_series : pydict Z nat
}.

Definition _generate_trend_charts
    (inventory_data : pydict Z (list record)) : list chart :=
  let active_articles :=
    fold_left
      (λ d '(date_str, data),
         dict_set date_str (length (List.filter is_active data)) d)
      inventory_data [] in
  let zero_inventory :=
    fold_left
      (λ d '(date_str, data),
         dict_set date_str (length (List.filter is_zero_inventory data)) d)
      inventory_data [] in
  [Chart "active_articles" active_articles;
   Chart "zero_inventory" zero_inventory].

Record trend_report := TrendReport {
  start_date : Z;
  end_date : Z;
  summary : trend_summary;
  category : option string;
  charts : list chart
}.

(** [if category:] holds for a string that is not empty. *)
Definition truthy (category : option string) : option string :=
  match category with
  | Some "" | None => None
  | Some c => Some c
  end.

(** The days from [start_date] to [end_date] that have data, in order. *)
Definition collect (store : gmap Z (list record)) (start_date end_date : Z)
  : pydict Z (list record) :=
  fold_left
    (λ inventory_data date_str,
       match InventoryTracker.retrieve_historical_data store date_str with
       | [] => inventory_data
       | data => dict_set date_str data inventory_data
       end)
    (seqZ start_date (end_date - start_date + 1)) [].

(** [generate_trend_report]; [now] is the reading of the clock and
    [None] is returned also when an exception is caught. *)
Definition generate_trend_report (history_days now : Z)
    (store : gmap Z (list record))
    (start_date end_date : option Z) (category : option string)
  : option trend_report :=
  let end_date := default now end_date in
  let start_date := default (end_date - history_days) start_date in
  let inventory_data := collect store start_date end_date in
  match inventory_data with
  | [] => None
  | _ =>
      match _generate_trend_summary inventory_data with
      | Raise _ => None
      | Ok summary =>
          let inventory_data :=
            match truthy category with
            | Some c =>
                (λ '(date_str, data),
                   (date_str,
                    List.filter
                      (λ item, py_eq (get item "kategorie") (VStr c))
                      data)) <$> inventory_data
            | None => inventory_data
            end in
          Some (TrendReport start_date end_date summary (truthy category)
                  (_generate_trend_charts inventory_data))
      end
  end.
(** The view that [_format_as_summary] builds from a daily report; the
    counts of the changes and of the deactivations are there when the
    report has these keys. *)
Record change_counts := ChangeCounts {
  increased_inventory : nat;
  decreased_inventory : nat;
  unchanged_inventory : nat;
  significant_changes_count : nat
}.

Record summary_view := SummaryView {
  sv_date : Z;
  sv_total_articles : nat;
  sv_active_articles : nat;
  sv_zero_inventory_count : nat;
  sv_changes : option change_counts;
  sv_deactivated_articles : option nat
}.

Definition _format_as_summary (report_data : daily_report) : summary_view :=
  SummaryView (date report_data) (total_articles report_data)
    (active_articles report_data) (length (zero_inventory report_data))
    ((λ ch, ChangeCounts (increased ch) (decreased ch) (unchanged ch)
              (length (significant_changes ch)))
       <$> report_changes report_data)
    (length <$> report_deactivations report_data).

(** The tables that [_format_as_table] builds.  A row of the table of
    changes ends with the text of [f"{change_percent:.2f}%"]; the
    formatting of a float with two decimals is the argument
    [format_percent]. *)
Record zero_inventory_line := ZeroInventoryLine {
  zl_artikel_id : value;
  zl_artikelnummer : value;
  zl_bezeichnung : value;
  zl_lager_name : value
}.

Record change_line := ChangeLine {
  cl_artikelnummer : cell;
  cl_bezeichnung : cell;
  cl_alt : value;
  cl_neu : value;
  cl_change : Z;
  cl_change_percent : string
}.

Record deactivation_line := DeactivationLine {
  dl_artikel_id : cell;
  dl_artikelnummer : cell;
  dl_bezeichnung : cell
}.

Record table_view := TableView {
  tv_date : Z;
  tv_zero_inventory : option (list zero_inventory_line);
  tv_changes : option (list change_line);
  tv_deactivations : option (list deactivation_line)
}.

Definition zero_inventory_line_of (item : zero_entry) : zero_inventory_line :=
  ZeroInventoryLine (ze_artikel_id item) (ze_artikelnummer item)
    (ze_bezeichnung item) (ze_lager_name item).

Definition change_line_of (format_percent : Q → string)
    (item : change_row current_row previous_row) : change_line :=
  ChangeLine (j_left (merged_row item) ≫= cur_artikelnummer)
    (j_left (merged_row item) ≫= cur_bezeichnung)
    (bestand_previous item) (bestand_current item) (change item)
    (format_percent (change_percent item)).

Definition deactivation_line_of (item : deactivation) : deactivation_line :=
  DeactivationLine (artikel_id item) (artikelnummer item) (bezeichnung item).

Definition _format_as_table (format_percent : Q → string)
    (report_data : daily_report) : table_view :=
  TableView (date report_data)
    (Some (zero_inventory_line_of <$> zero_inventory report_data))
    ((λ ch : changes,
        change_line_of format_percent <$> significant_changes ch)
       <$> report_changes report_data)
    ((λ de : list deactivation, deactivation_line_of <$> de)
       <$> report_deactivations report_data).

Definition _format_as_detailed (report_data : daily_report) : daily_report :=
  report_data.

(** What [format_report_data] returns for a daily report. *)
Inductive formatted :=
  | FormattedTable (view : table_view)
  | FormattedSummary (view : summary_view)
  | Unformatted (report_data : daily_report).

Definition format_report_data (format_percent : Q → string)
    (report_data : option daily_report) (format_type : string)
  : option formatted :=
  match report_data with
  | None => None
  | Some report_data =>
      if String.eqb format_type "table"
      then Some (FormattedTable (_format_as_table format_percent report_data))
      else if String.eqb format_type "summary"
      then Some (FormattedSummary (_format_as_summary report_data))
      else if String.eqb format_type "detailed"
      then Some (Unformatted (_format_as_detailed report_data))
      else Some (Unformatted report_data)
  end.
End ReportGenerator.

(** ** [class TaskScheduler] *)

Module TaskScheduler.

Inductive status := success | failed.

(** The state of the scheduler: the failure counts by task id, the retry
    jobs [retry_<task_id>_<attempt>] with the minutes of their interval
    trigger, and the calls of [notify_task_status].  A task id
    [task_%Y%m%d%H%M%S] is the second of the clock that it names. *)
Record state := State {
  current_task_id : option Z;
  task_failures : gmap Z Z;
  retry_jobs : gmap (Z * Z) Z;
  notifications : list (Z * status)
}.

Definition microseconds_per_second : Z := 1000000.

Definition task_id_of (now : Z) : Z := now `div` microseconds_per_second.

Definition notify_task_status (task_id : Z) (st : status) (s : state)
  : state :=
  State (current_task_id s) (task_failures s) (retry_jobs s)
        (notifications s ++ [(task_id, st)]).

Definition retry_failed_task (retry_interval task_id : Z) (s : state)
  : result state :=
  match task_failures s !! task_id with
  | None => Raise LookupError
  | Some current_attempt =>
      let wait_time := retry_interval * current_attempt in
      Ok (State (current_task_id s) (task_failures s)
            (<[(task_id, current_attempt) := wait_time]> (retry_jobs s))
            (notifications s))
  end.

Definition handle_task_failure (retry_attempts retry_interval task_id : Z)
    (s : state) : result state :=
  let task_failures :=
    match task_failures s !! task_id with
    | None => <[task_id := 0]> (task_failures s)
    | Some _ => task_failures s
    end in
  let current_attempt := default 0 (task_failures !! task_id) + 1 in
  let s :=
    State (current_task_id s) (<[task_id := current_attempt]> task_failures)
          (retry_jobs s) (notifications s) in
  if current_attempt <? retry_attempts
  then retry_failed_task retry_interval task_id s
  else Ok (notify_task_status task_id failed s).

(** [execute_task]: [now_task] is the reading of the clock for the task id,
    the other readings and the rows are those of [track_daily_inventory].
    An exception in the body is handled as a failure. *)
Definition execute_task (retry_attempts retry_interval : Z)
    (highlight_threshold max_data_age : Z)
    (now_task now now_store now_clean : Z) (inventory_data : list record)
    (world : gmap Z (list record) * state)
  : result (bool * (gmap Z (list record) * state)) :=
  let '(store, s) := world in
  let task_id := task_id_of now_task in
  let s := State (Some task_id) (task_failures s) (retry_jobs s)
                 (notifications s) in
  let '(result, store) :=
    InventoryTracker.track_daily_inventory highlight_threshold max_data_age
      now now_store now_clean inventory_data store in
  if result
  then Ok (true, (store, notify_task_status task_id success s))
  else
    match handle_task_failure retry_attempts retry_interval task_id s with
    | Ok s => Ok (false, (store, s))
    | Raise _ =>
        s ← handle_task_failure retry_attempts retry_interval task_id s;
        Ok (false, (store, s))
    end.
End TaskScheduler.

(** ** Vocabulary of the specification *)

(** A zero-stock item: status active and quantity exactly zero. *)
Definition zero_stock (r : record) : Prop :=
  r !! "status" = Some (VStr "aktiv") ∧ r !! "bestand" = Some (VInt 0).

#[global] Instance zero_stock_dec r : Decision (zero_stock r).
Proof. unfold zero_stock. apply _. Defined.

(** The number of times that [x] occurs in [l]. *)
Definition occurrences {A} `{EqDecision A} (x : A) (l : list A) : nat :=
  length (filter (x =.) l).

(** A row with every field that the engine reads, and an integer
    quantity. *)
Definition well_formed (r : record) : Prop :=
  is_Some (r !! "artikel_id") ∧ is_Some (r !! "artikelnummer")
  ∧ is_Some (r !! "bezeichnung") ∧ is_Some (r !! "status")
  ∧ is_Some (r !! "lager_id") ∧ ∃ q, r !! "bestand" = Some (VInt q).

(** A row as the data source delivers it. *)
Definition inventory_record (artikel_id : Z) (artikelnummer bezeichnung
    kategorie status : string) (bestand : Z) (lager_id : string) : record :=
  list_to_map
    [("artikel_id", VInt artikel_id); ("artikelnummer", VStr artikelnummer);
     ("bezeichnung", VStr bezeichnung); ("hersteller", VStr "Kabelwerk");
     ("kategorie", VStr kategorie); ("status", VStr status);
     ("bestand", VInt bestand); ("lager_id", VStr lager_id);
     ("lager_name", VStr "Hauptlager")].

(** The two status transitions between consecutive snapshots. *)
Definition is_deactivation (m : Common.deactivation) : Prop :=
  Common.status_previous m = Some (VStr "aktiv")
  ∧ Common.status_current m = Some (VStr "inaktiv").

Definition is_reactivation (m : Common.deactivation) : Prop :=
  Common.status_previous m = Some (VStr "inaktiv")
  ∧ Common.status_current m = Some (VStr "aktiv").

(** A row without a quantity and a row without a status. *)
Definition record_without_bestand : record :=
  delete "bestand"
    (inventory_record 1 "K-100" "Kabelbinder" "Zubehoer" "aktiv" 0 "A").

Definition record_without_status : record :=
  delete "status"
    (inventory_record 1 "K-100" "Kabelbinder" "Zubehoer" "aktiv" 0 "A").

(** A snapshot of [n] active rows. *)
Definition active_rows (n : Z) : list record :=
  (λ i, inventory_record i "K-100" "Kabelbinder" "Zubehoer" "aktiv" 5 "A")
    <$> seqZ 1 n.

(** The quantity of a row is a number (or missing), not text. *)
Definition numeric_quantity (r : record) : Prop :=
  ∀ s, r !! "bestand" ≠ Some (VStr s).

(** The formulas for [change] and [change_percent] of a merged row. *)
Definition change_formula {L R} (row : Common.change_row L R) : Prop :=
  ∃ quantity_current quantity_previous : Z,
    Common.bestand_current row = VInt quantity_current
    ∧ Common.bestand_previous row = VInt quantity_previous
    ∧ Common.change row = quantity_current - quantity_previous
    ∧ Common.change_percent row
      = (inject_Z (Common.change row)
         / inject_Z (if decide (quantity_previous = 0) then 1
                     else quantity_previous)%Z
         * 100)%Q.



(** Every column that the engine reads occurs in the frame. *)
Definition columns_present (data : list record) : Prop :=
  Forall (λ c, Pandas.has_column data c = true)
    ["artikel_id"; "artikelnummer"; "bezeichnung"; "status"; "lager_id";
     "bestand"].




(** A store with one day of data: one row of category Kabel and one of
    category Werkzeug, both active and out of stock. *)
Definition two_category_store : gmap Z (list record) :=
  {[ 99 := [inventory_record 1 "K-100" "Kabelbinder" "Kabel" "aktiv" 0 "A";
            inventory_record 2 "W-200" "Seitenschneider" "Werkzeug" "aktiv"
              0 "A"] ]}.

(** [n] failures of the same task in a row. *)
Fixpoint fail_repeatedly (retry_attempts retry_interval task_id : Z)
    (n : nat) (s : TaskScheduler.state) : result TaskScheduler.state :=
  match n with
  | O => Ok s
  | S n' =>
      s' ← fail_repeatedly retry_attempts retry_interval task_id n' s;
      TaskScheduler.handle_task_failure retry_attempts retry_interval
        task_id s'
  end.

(** One run of the scheduled task: its readings of the clock and the rows
    that the query returns. *)
Record run := Run {
  run_now_task : Z;
  run_now : Z;
  run_now_store : Z;
  run_now_clean : Z;
  run_rows : list record
}.

Definition run_task_id (r : run) : Z :=
  TaskScheduler.task_id_of (run_now_task r).

(** The runs one after the other; the results of the runs and the world
    that is left. *)
Fixpoint execute_tasks (retry_attempts retry_interval thr max_data_age : Z)
    (runs : list run) (world : gmap Z (list record) * TaskScheduler.state)
  : result (list bool * (gmap Z (list record) * TaskScheduler.state)) :=
  match runs with
  | [] => Ok ([], world)
  | r :: runs' =>
      '(b, world) ←
        TaskScheduler.execute_task retry_attempts retry_interval
          thr max_data_age (run_now_task r) (run_now r) (run_now_store r)
          (run_now_clean r) (run_rows r) world;
      '(bs, world) ←
        execute_tasks retry_attempts retry_interval thr max_data_age
          runs' world;
      Ok (b :: bs, world)
  end.

(** The scheduler before any run. *)
Definition initial_state : TaskScheduler.state :=
  TaskScheduler.State None ∅ ∅ [].

(** The percentage of a row with a zero on one side: 100 times the
    change when the previous quantity is 0, and -100 when the current
    quantity is 0 and the previous one is not; the latter is significant
    exactly for thresholds up to 100. *)
Definition percent_at_zero {L R} (row : Common.change_row L R) : Prop :=
  (Common.bestand_previous row = VInt 0 →
   (Common.change_percent row == inject_Z (100 * Common.change row))%Q)
  ∧ (Common.bestand_current row = VInt 0 →
     Common.bestand_previous row ≠ VInt 0 →
     (Common.change_percent row == -100)%Q
     ∧ ∀ thr, Common.significant thr row = true ↔ thr ≤ 100).

(** * Properties *)

Section ListFacts.
Context {A : Type}.

Lemma fold_left_append_if {B} (p : A → bool) (f : A → B) (l : list A)
    (acc : list B) :
  fold_left (λ acc x, if p x then acc ++ [f x] else acc) l acc
  = acc ++ (f <$> List.filter p l).
Proof.
  revert acc. induction l as [|x l IH]; intros acc; simpl.
  - by rewrite app_nil_r.
  - rewrite IH. destruct (p x); simpl; [|done].
    by rewrite <- app_assoc.
Qed.

Lemma elem_of_List_filter (p : A → bool) (l : list A) (x : A) :
  x ∈ List.filter p l ↔ x ∈ l ∧ p x = true.
Proof. rewrite !list_elem_of_In. apply filter_In. Qed.

Lemma List_filter_as_filter (p : A → bool) (P : A → Prop)
    `{∀ x, Decision (P x)} (l : list A) :
  Forall (λ x, p x = true ↔ P x) l → List.filter p l = filter P l.
Proof.
  induction 1 as [|x l Hx _ IH]; [done|]. simpl.
  rewrite filter_cons, IH.
  destruct (p x) eqn:Hp; destruct (decide (P x)) as [HP|HP]; try done.
  - destruct HP. by apply Hx.
  - apply Hx in HP. congruence.
Qed.
End ListFacts.

Lemma detect_zero_inventory_filter (inventory_data : list record) :
  InventoryTracker.detect_zero_inventory inventory_data
  = List.filter Common.is_zero_inventory inventory_data.
Proof.
  unfold InventoryTracker.detect_zero_inventory.
  rewrite (fold_left_append_if _ id). simpl. by rewrite list_fmap_id.
Qed.

Lemma is_zero_inventory_spec (r : record) :
  is_Some (r !! "bestand") →
  Common.is_zero_inventory r = true ↔ zero_stock r.
Proof.
  intros [v Hv]. unfold Common.is_zero_inventory, zero_stock, py_eq, get,
    get_default.
  rewrite Hv. simpl. rewrite andb_true_iff, !bool_decide_eq_true.
  destruct (r !! "status") as [s|]; simpl; intuition congruence.
Qed.

Lemma is_zero_inventory_missing (r : record) :
  r !! "bestand" = None → r !! "status" = Some (VStr "aktiv") →
  Common.is_zero_inventory r = true.
Proof.
  intros Hb Hs. unfold Common.is_zero_inventory, py_eq, get, get_default.
  by rewrite Hb, Hs.
Qed.

Lemma occurrences_not_elem_of {A} `{EqDecision A} (x : A) (l : list A) :
  x ∉ l → occurrences x l = 0%nat.
Proof.
  unfold occurrences. induction l as [|y l IH]; [done|].
  intros Hx. apply not_elem_of_cons in Hx as [Hne Hx].
  rewrite filter_cons, decide_False by done. by apply IH.
Qed.

Lemma occurrences_NoDup {A} `{EqDecision A} (x : A) (l : list A) :
  NoDup l → x ∈ l → occurrences x l = 1%nat.
Proof.
  induction 1 as [|y l Hy Hnd IH]; intros Hx.
  - by apply not_elem_of_nil in Hx.
  - unfold occurrences. rewrite filter_cons.
    destruct (decide (x = y)) as [->|Hne]; simpl.
    + f_equal. by apply occurrences_not_elem_of.
    + apply elem_of_cons in Hx as [?|Hx]; [done|]. by apply IH.
Qed.

Lemma occurrences_filter {A} `{EqDecision A} (P : A → Prop)
    `{∀ x, Decision (P x)} (x : A) (l : list A) :
  occurrences x (filter P l)
  = if decide (P x) then occurrences x l else 0%nat.
Proof.
  unfold occurrences. induction l as [|y l IH]; [by destruct (decide _)|].
  rewrite (filter_cons P), (filter_cons (x =.) y l).
  destruct (decide (P y)) as [Hy|Hy]; rewrite ?filter_cons;
    destruct (decide (x = y)) as [->|Hne]; simpl; rewrite IH;
    repeat case_decide; done.
Qed.

(** C4. On a snapshot whose rows have a quantity, [detect_zero_inventory]
    returns exactly the rows with status active and quantity 0, in the
    order and with the multiplicity of the snapshot: a row is in the output
    iff it is such a row of the snapshot, a row of a duplicate-free
    snapshot occurs exactly once, and the empty snapshot gives the empty
    list.  The function is total: it has a value on every list of rows. *)
Theorem detect_zero_inventory_exact (S : list record) :
  Forall (λ r, is_Some (r !! "bestand")) S →
  InventoryTracker.detect_zero_inventory S = filter zero_stock S
  ∧ (∀ r, r ∈ InventoryTracker.detect_zero_inventory S
          ↔ r ∈ S ∧ zero_stock r)
  ∧ (∀ r, occurrences r (InventoryTracker.detect_zero_inventory S)
          = if decide (zero_stock r) then occurrences r S else 0%nat)
  ∧ (NoDup S → ∀ r, r ∈ S → zero_stock r →
       occurrences r (InventoryTracker.detect_zero_inventory S) = 1%nat)
  ∧ InventoryTracker.detect_zero_inventory [] = [].
Proof.
  intros HS.
  assert (Heq : InventoryTracker.detect_zero_inventory S
                = filter zero_stock S).
  { rewrite detect_zero_inventory_filter.
    apply List_filter_as_filter.
    eapply Forall_impl; [exact HS|]. intros r Hr.
    by apply is_zero_inventory_spec. }
  rewrite Heq. split_and!; [done| | | |done].
  - intros r. by rewrite list_elem_of_filter, (comm _ (zero_stock r)).
  - intros r. apply occurrences_filter.
  - intros Hnd r Hr Hz. rewrite occurrences_filter, decide_True by done.
    by apply occurrences_NoDup.
Qed.

Lemma detect_zero_inventory_exact_witness :
  InventoryTracker.detect_zero_inventory
    [inventory_record 1 "K-100" "Kabelbinder" "Zubehoer" "aktiv" 0 "A";
     inventory_record 2 "K-200" "Schrumpfschlauch" "Zubehoer" "aktiv" 7 "A"]
  = [inventory_record 1 "K-100" "Kabelbinder" "Zubehoer" "aktiv" 0 "A"].
Proof.
  pose proof (detect_zero_inventory_exact
    [inventory_record 1 "K-100" "Kabelbinder" "Zubehoer" "aktiv" 0 "A";
     inventory_record 2 "K-200" "Schrumpfschlauch" "Zubehoer" "aktiv" 7 "A"])
    as H.
  destruct H as [H _].
  - repeat constructor; vm_compute; eauto.
  - rewrite H. reflexivity.
Defined.

(** *** The daily report *)

Lemma generate_daily_report_zero_inventory thr store d rep log :
  ReportGenerator.generate_daily_report thr store d = (Some rep, log) →
  ReportGenerator.zero_inventory rep
  = ReportGenerator.zero_entry_of <$>
      List.filter Common.is_zero_inventory
        (InventoryTracker.retrieve_historical_data store d).
Proof.
  unfold ReportGenerator.generate_daily_report.
  rewrite fold_left_append_if. simpl.
  destruct (InventoryTracker.retrieve_historical_data store d) as [|c cs];
    [done|].
  destruct (InventoryTracker.retrieve_historical_data store (d - 1));
    [by intros [= <- _]|].
  destruct (ReportGenerator._calculate_changes _ _ _); [|done].
  destruct (ReportGenerator._detect_deactivations _ _); [|done].
  by intros [= <- _].
Qed.

Lemma generate_daily_report_no_previous thr store d :
  InventoryTracker.retrieve_historical_data store (d - 1) = [] →
  ReportGenerator.generate_daily_report thr store d
  = match InventoryTracker.retrieve_historical_data store d with
    | [] => (None, [ReportGenerator.call_retrieve_historical_data d])
    | current_data =>
        (Some (ReportGenerator.DailyReport d (length current_data)
                 (length (List.filter Common.is_active current_data))
                 (ReportGenerator.zero_entry_of <$>
                    InventoryTracker.detect_zero_inventory current_data)
                 None None),
         [ReportGenerator.call_retrieve_historical_data d;
          ReportGenerator.call_retrieve_historical_data (d - 1)])
    end.
Proof.
  intros Hprev. unfold ReportGenerator.generate_daily_report.
  rewrite Hprev, fold_left_append_if.
  destruct (InventoryTracker.retrieve_historical_data store d); [done|].
  by rewrite detect_zero_inventory_filter.
Qed.

(** C9. When the snapshot of the previous day is absent, the daily report
    is built from the current snapshot alone: neither [_calculate_changes]
    nor [_detect_deactivations] is called, the zero-stock rows of the
    current snapshot are reported, and the report has neither a [changes]
    nor a [deactivations] key. *)
Theorem daily_report_without_previous thr store d :
  store !! (d - 1) = None →
  let out := ReportGenerator.generate_daily_report thr store d in
  (ReportGenerator.call_calculate_changes ∉ out.2)
  ∧ (ReportGenerator.call_detect_deactivations ∉ out.2)
  ∧ (∀ rep, out.1 = Some rep →
       ReportGenerator.report_changes rep = None
       ∧ ReportGenerator.report_deactivations rep = None
       ∧ ReportGenerator.zero_inventory rep
         = ReportGenerator.zero_entry_of <$>
             InventoryTracker.detect_zero_inventory
               (InventoryTracker.retrieve_historical_data store d))
  ∧ (InventoryTracker.retrieve_historical_data store d ≠ [] →
     is_Some out.1).
Proof.
  intros Hprev out. subst out.
  rewrite generate_daily_report_no_previous
    by (unfold InventoryTracker.retrieve_historical_data; by rewrite Hprev).
  destruct (InventoryTracker.retrieve_historical_data store d) as [|c cs];
    simpl.
  - split_and!; [| |done|done]; set_solver.
  - split_and!; [| | |by eauto]; [set_solver..|].
    + by intros rep [= <-].
Qed.

Lemma daily_report_without_previous_witness :
  ReportGenerator.report_changes <$>
    (ReportGenerator.generate_daily_report 10
       {[ 20 := [inventory_record 1 "K-100" "Kabelbinder" "Zubehoer"
                   "aktiv" 0 "A"] ]} 20).1
  = Some None.
Proof.
  pose proof (daily_report_without_previous 10
    {[ 20 := [inventory_record 1 "K-100" "Kabelbinder" "Zubehoer"
                "aktiv" 0 "A"] ]} 20) as H.
  destruct H as (_ & _ & H & Hsome); [reflexivity|].
  destruct Hsome as [rep Hrep]; [vm_compute; discriminate|].
  rewrite Hrep. simpl. f_equal. by apply H.
Defined.

(** C10. A row without a [bestand] field counts as a row with quantity 0:
    when its status is active, the zero-stock detector returns it, and the
    daily report lists it under [zero_inventory]. *)
Theorem zero_inventory_missing_quantity (S : list record) (r : record) :
  r ∈ S → r !! "bestand" = None → r !! "status" = Some (VStr "aktiv") →
  r ∈ InventoryTracker.detect_zero_inventory S
  ∧ (∀ thr store d rep log,
       InventoryTracker.retrieve_historical_data store d = S →
       ReportGenerator.generate_daily_report thr store d = (Some rep, log) →
       ReportGenerator.zero_entry_of r ∈ ReportGenerator.zero_inventory rep)
  ∧ (∀ thr (store : gmap Z (list record)) d,
       store !! d = Some S → store !! (d - 1) = None →
       ∃ rep log,
         ReportGenerator.generate_daily_report thr store d = (Some rep, log)
         ∧ ReportGenerator.zero_entry_of r
           ∈ ReportGenerator.zero_inventory rep).
Proof.
  intros Hr Hb Hs.
  assert (Hin : r ∈ List.filter Common.is_zero_inventory S).
  { apply elem_of_List_filter. split; [done|].
    by apply is_zero_inventory_missing. }
  split_and!.
  - by rewrite detect_zero_inventory_filter.
  - intros thr store d rep log HS Hrep.
    rewrite (generate_daily_report_zero_inventory _ _ _ _ _ Hrep), HS.
    by apply list_elem_of_fmap_2.
  - intros thr store d Hd Hprev.
    assert (HS : InventoryTracker.retrieve_historical_data store d = S)
      by (unfold InventoryTracker.retrieve_historical_data; by rewrite Hd).
    pose proof (generate_daily_report_no_previous thr store d) as Hgen.
    rewrite HS in Hgen. destruct S as [|c cs];
      [by apply not_elem_of_nil in Hr|].
    eexists _, _. split.
    + apply Hgen. unfold InventoryTracker.retrieve_historical_data.
      by rewrite Hprev.
    + simpl. rewrite detect_zero_inventory_filter.
      by apply list_elem_of_fmap_2.
Qed.

Lemma zero_inventory_missing_quantity_witness :
  record_without_bestand
  ∈ InventoryTracker.detect_zero_inventory
      [inventory_record 2 "K-200" "Schrumpfschlauch" "Zubehoer" "aktiv" 7 "A";
       record_without_bestand].
Proof.
  apply (zero_inventory_missing_quantity
    [inventory_record 2 "K-200" "Schrumpfschlauch" "Zubehoer" "aktiv" 7 "A";
     record_without_bestand] record_without_bestand).
  - set_solver.
  - reflexivity.
  - reflexivity.
Defined.

(** *** Columns of a frame *)


Lemma require_columns_present (df : list record) (cols : list string) :
  Forall (λ c, Pandas.has_column df c = true) cols →
  Pandas.require_columns df cols = Ok tt.
Proof.
  intros H. unfold Pandas.require_columns, Pandas.missing_columns.
  replace (List.filter _ cols) with (@nil string); [done|].
  induction H as [|c cols Hc _ IH]; [done|]. simpl. by rewrite Hc.
Qed.

(** *** Status transitions *)

Lemma deactivated_elem_of (current_data previous_data : list record) m :
  m ∈ Common.deactivated current_data previous_data ↔
  ∃ c p, c ∈ current_data ∧ p ∈ previous_data
    ∧ p !! "artikel_id" = c !! "artikel_id"
    ∧ p !! "status" = Some (VStr "aktiv")
    ∧ c !! "status" = Some (VStr "inaktiv")
    ∧ m = Common.Deactivation (c !! "artikel_id") (c !! "artikelnummer")
            (c !! "bezeichnung") (c !! "status") (p !! "status").
Proof.
  unfold Common.deactivated, Pandas.merge_inner, Pandas.cell_eq_str.
  rewrite elem_of_List_filter, list_elem_of_fmap, andb_true_iff,
    !bool_decide_eq_true.
  split.
  - intros [([x y] & -> & Hxy) [Hp Hc]]. simpl in *.
    apply list_elem_of_bind in Hxy as (x' & Hy & Hx).
    apply list_elem_of_fmap in Hy as (y' & [= <- <-] & Hy).
    apply elem_of_List_filter in Hy as [Hy Hk].
    apply bool_decide_eq_true in Hk.
    apply list_elem_of_fmap in Hx as (c & -> & Hc').
    apply list_elem_of_fmap in Hy as (p & -> & Hp').
    exists c, p. simpl in *. by split_and!.
  - intros (c & p & Hc & Hp & Hk & Hps & Hcs & ->). simpl. split; [|done].
    exists (Common.current_status c, Common.previous_status p).
    split; [done|]. apply list_elem_of_bind.
    exists (Common.current_status c). split; [|by apply list_elem_of_fmap_2].
    apply list_elem_of_fmap_2, elem_of_List_filter.
    split; [by apply list_elem_of_fmap_2|]. by apply bool_decide_eq_true.
Qed.

Lemma deactivated_transitions (current_data previous_data : list record) :
  Forall (λ m, is_deactivation m ∧ ¬ is_reactivation m)
    (Common.deactivated current_data previous_data).
Proof.
  apply Forall_forall. intros m Hm.
  apply deactivated_elem_of in Hm as (c & p & _ & _ & _ & Hp & Hc & ->).
  unfold is_deactivation, is_reactivation. simpl.
  rewrite Hp, Hc. split; [done|]. by intros [[=] _].
Qed.

(** C8. Every row that [detect_deactivations] (either class) returns went
    from active to inactive, so none is a reactivation; the rows returned
    are those of the inner join on [artikel_id] with that transition, and
    they are returned whenever the selected columns exist. *)
Theorem deactivations_only (current_data previous_data : list record) :
  (∀ rows,
     InventoryTracker.detect_deactivations current_data previous_data
       = Ok rows
     ∨ ReportGenerator._detect_deactivations current_data previous_data
       = Ok rows →
     Forall (λ m, is_deactivation m ∧ ¬ is_reactivation m) rows)
  ∧ (Forall (λ c, Pandas.has_column current_data c = true)
       ["artikel_id"; "artikelnummer"; "bezeichnung"; "status"] →
     Forall (λ c, Pandas.has_column previous_data c = true)
       ["artikel_id"; "status"] →
     InventoryTracker.detect_deactivations current_data previous_data
       = Ok (Common.deactivated current_data previous_data)
     ∧ ReportGenerator._detect_deactivations current_data previous_data
       = Ok (Common.deactivated current_data previous_data)
     ∧ ∀ c p, c ∈ current_data → p ∈ previous_data →
         p !! "artikel_id" = c !! "artikel_id" →
         p !! "status" = Some (VStr "inaktiv") →
         c !! "status" = Some (VStr "aktiv") →
         Common.Deactivation (c !! "artikel_id") (c !! "artikelnummer")
           (c !! "bezeichnung") (c !! "status") (p !! "status")
         ∉ Common.deactivated current_data previous_data).
Proof.
  pose proof (deactivated_transitions current_data previous_data) as Hall.
  split.
  - intros rows [H|H].
    + unfold InventoryTracker.detect_deactivations in H.
      destruct (_ || _); [by injection H as <-|].
      destruct (Pandas.require_columns current_data _); [|done].
      destruct (Pandas.require_columns previous_data _); [|done].
      by injection H as <-.
    + unfold ReportGenerator._detect_deactivations in H.
      destruct (Pandas.require_columns current_data _); [|done].
      destruct (Pandas.require_columns previous_data _); [|done].
      by injection H as <-.
  - intros Hc Hp.
    unfold InventoryTracker.detect_deactivations,
      ReportGenerator._detect_deactivations.
    rewrite !require_columns_present by done. simpl.
    rewrite (Forall_lookup_1 _ _ 0%nat _ Hc eq_refl),
      (Forall_lookup_1 _ _ 3%nat _ Hc eq_refl),
      (Forall_lookup_1 _ _ 0%nat _ Hp eq_refl),
      (Forall_lookup_1 _ _ 1%nat _ Hp eq_refl).
    simpl. split_and!; [done..|].
    intros c p _ _ _ Hps Hcs Hin.
    eapply Forall_forall in Hall as [[Hd _] _]; [|exact Hin].
    simpl in Hd. congruence.
Qed.

Lemma deactivations_only_witness :
  InventoryTracker.detect_deactivations
    [inventory_record 1 "K-100" "Kabelbinder" "Zubehoer" "inaktiv" 0 "A";
     inventory_record 2 "K-200" "Schrumpfschlauch" "Zubehoer" "aktiv" 7 "A"]
    [inventory_record 1 "K-100" "Kabelbinder" "Zubehoer" "aktiv" 3 "A";
     inventory_record 2 "K-200" "Schrumpfschlauch" "Zubehoer" "inaktiv" 7 "A"]
  = Ok [Common.Deactivation (Some (VInt 1)) (Some (VStr "K-100"))
          (Some (VStr "Kabelbinder")) (Some (VStr "inaktiv"))
          (Some (VStr "aktiv"))].
Proof.
  pose proof (deactivations_only
    [inventory_record 1 "K-100" "Kabelbinder" "Zubehoer" "inaktiv" 0 "A";
     inventory_record 2 "K-200" "Schrumpfschlauch" "Zubehoer" "aktiv" 7 "A"]
    [inventory_record 1 "K-100" "Kabelbinder" "Zubehoer" "aktiv" 3 "A";
     inventory_record 2 "K-200" "Schrumpfschlauch" "Zubehoer" "inaktiv" 7 "A"])
    as [_ H].
  destruct H as (H & _ & _).
  - repeat constructor.
  - repeat constructor.
  - rewrite H. reflexivity.
Defined.

(** *** Missing columns *)

Lemma forallb_has_column_false (df : list record) (cols : list string) c :
  c ∈ cols → Pandas.has_column df c = false →
  forallb (Pandas.has_column df) cols = false.
Proof.
  intros Hc Hf. apply not_true_is_false. intros Hall.
  rewrite forallb_forall in Hall.
  apply list_elem_of_In, Hall in Hc. congruence.
Qed.

(** C2, as the code has it.  When a column that the guard of
    [compare_inventory_levels] names ([artikel_id], [artikelnummer],
    [bestand], [lager_id]) is absent from either frame, the method returns
    the empty dict; when [artikel_id] or [status] is absent from either
    frame, [detect_deactivations] returns the empty list.  Neither raises. *)
Theorem missing_column_empty_result (thr : Z)
    (current_data previous_data : list record) :
  (∀ c, c ∈ InventoryTracker.required_columns →
        Pandas.has_column current_data c = false
        ∨ Pandas.has_column previous_data c = false →
        InventoryTracker.compare_inventory_levels thr
          current_data previous_data
        = Ok InventoryTracker.EmptyDict)
  ∧ (∀ c, c ∈ ["artikel_id"; "status"] →
          Pandas.has_column current_data c = false
          ∨ Pandas.has_column previous_data c = false →
          InventoryTracker.detect_deactivations current_data previous_data
          = Ok []).
Proof.
  split; intros c Hc Hmiss.
  - unfold InventoryTracker.compare_inventory_levels.
    destruct Hmiss as [H|H];
      rewrite (forallb_has_column_false _ _ _ Hc H); simpl;
      [done|by rewrite orb_true_r].
  - unfold InventoryTracker.detect_deactivations.
    apply elem_of_cons in Hc as [->|Hc];
      [|apply elem_of_cons in Hc as [->|Hc];
        [|by apply not_elem_of_nil in Hc]];
      destruct Hmiss as [H|H]; rewrite H; simpl;
      by rewrite ?orb_true_r.
Qed.

Lemma missing_column_empty_result_witness :
  InventoryTracker.compare_inventory_levels 10
    [record_without_bestand]
    [inventory_record 1 "K-100" "Kabelbinder" "Zubehoer" "aktiv" 50 "A"]
  = Ok InventoryTracker.EmptyDict
  ∧ InventoryTracker.detect_deactivations
      [record_without_status]
      [inventory_record 1 "K-100" "Kabelbinder" "Zubehoer" "aktiv" 50 "A"]
    = Ok [].
Proof.
  split.
  - apply (proj1 (missing_column_empty_result 10 [record_without_bestand]
      [inventory_record 1 "K-100" "Kabelbinder" "Zubehoer" "aktiv" 50 "A"])
      "bestand").
    + unfold InventoryTracker.required_columns. set_solver.
    + left. reflexivity.
  - apply (proj2 (missing_column_empty_result 10 [record_without_status]
      [inventory_record 1 "K-100" "Kabelbinder" "Zubehoer" "aktiv" 50 "A"])
      "status").
    + set_solver.
    + left. reflexivity.
Defined.

(** C2, as the specification has it, fails: with the quantity missing from
    the current snapshot the diff returns the empty dict, and with the
    status missing the detector returns the empty list; no error is
    signalled in either case. *)
Lemma missing_field_not_signalled :
  ¬ (∃ e, InventoryTracker.compare_inventory_levels 10
            [record_without_bestand]
            [inventory_record 1 "K-100" "Kabelbinder" "Zubehoer" "aktiv"
               50 "A"]
          = Raise e)
  ∧ ¬ (∃ e, InventoryTracker.detect_deactivations
              [record_without_status]
              [inventory_record 1 "K-100" "Kabelbinder" "Zubehoer" "aktiv"
                 50 "A"]
            = Raise e).
Proof. split; intros [e He]; vm_compute in He; discriminate. Qed.

(** *** Insertion-ordered dicts *)

Section PyDictFacts.
Context {K V : Type} `{EqDecision K}.

Lemma dict_set_fresh (k : K) (v : V) (d : pydict K V) :
  k ∉ dict_keys d → dict_set k v d = (d ++ [(k, v)]).
Proof.
  unfold dict_keys. induction d as [|[k' v'] d IH]; [done|].
  intros Hk. apply not_elem_of_cons in Hk as [Hne Hk]. simpl in *.
  rewrite decide_False by done. by rewrite IH.
Qed.

Lemma dict_get_app_fresh (k : K) (d1 d2 : pydict K V) :
  k ∉ dict_keys d1 → dict_get k (d1 ++ d2) = dict_get k d2.
Proof.
  unfold dict_keys. induction d1 as [|[k' v'] d1 IH]; [done|].
  intros Hk. apply not_elem_of_cons in Hk as [Hne Hk]. simpl in *.
  rewrite decide_False by done. by apply IH.
Qed.

Lemma dict_get_head (k : K) (v : V) (d : pydict K V) :
  dict_get k ((k, v) :: d) = Some v.
Proof. simpl. by rewrite decide_True. Qed.
End PyDictFacts.

(** A loop that stores one value per key of a dict visits every key once
    and so builds the dict of the images. *)
Lemma fold_dict_set {K V W} `{EqDecision K} (f : V → W)
    (l : pydict K V) (acc : pydict K W) :
  NoDup (dict_keys acc ++ dict_keys l) →
  fold_left (λ d '(k, v), dict_set k (f v) d) l acc
  = acc ++ (prod_map id f <$> l).
Proof.
  unfold dict_keys. revert acc.
  induction l as [|[k v] l IH]; intros acc Hnd.
  - simpl. by rewrite app_nil_r.
  - rewrite fmap_cons in Hnd. simpl in Hnd.
    apply NoDup_app in Hnd as (Hacc & Hdisj & Hl).
    apply NoDup_cons in Hl as [Hk Hl].
    simpl fold_left. rewrite dict_set_fresh
      by (intros Hin; apply (Hdisj _ Hin); left).
    rewrite IH.
    + rewrite <- app_assoc. by rewrite fmap_cons.
    + rewrite fmap_app. simpl. apply NoDup_app. split_and!.
      * apply NoDup_app. split_and!; [done| |apply NoDup_singleton].
        intros x Hx ->%list_elem_of_singleton.
        apply (Hdisj _ Hx). left.
      * intros x Hx Hxl. apply elem_of_app in Hx as [Hx|Hx].
        -- apply (Hdisj _ Hx). by right.
        -- apply list_elem_of_singleton in Hx as ->. done.
      * done.
Qed.

(** *** The trend label *)

Lemma Qltb_lt (a b : Q) : ReportGenerator.Qltb a b = true ↔ (a < b)%Q.
Proof.
  unfold ReportGenerator.Qltb. rewrite Qlt_alt.
  destruct (a ?= b)%Q; intuition congruence.
Qed.

Lemma trend_of_spec (active_first active_last : nat) :
  let first := inject_Z (Z.of_nat active_first) in
  let last := inject_Z (Z.of_nat active_last) in
  (ReportGenerator.trend_of active_first active_last
     = ReportGenerator.increasing ↔ (first * (105 # 100) < last)%Q)
  ∧ (ReportGenerator.trend_of active_first active_last
       = ReportGenerator.decreasing ↔ (last < first * (95 # 100))%Q)
  ∧ (ReportGenerator.trend_of active_first active_last
       = ReportGenerator.stable
     ↔ ¬ (first * (105 # 100) < last)%Q ∧ ¬ (last < first * (95 # 100))%Q).
Proof.
  intros first last. unfold ReportGenerator.trend_of. fold first last.
  pose proof (Qltb_lt (first * (105 # 100)) last) as Hup.
  pose proof (Qltb_lt last (first * (95 # 100))) as Hdown.
  assert (Hexcl : (first * (105 # 100) < last)%Q →
                  (last < first * (95 # 100))%Q → False).
  { subst first last. unfold Qlt. simpl. lia. }
  destruct (ReportGenerator.Qltb (first * (105 # 100)) last);
    destruct (ReportGenerator.Qltb last (first * (95 # 100)));
    split_and!; split; try done; try tauto;
    try (intros; exfalso; intuition congruence).
Qed.

Lemma generate_trend_summary_dicts (inventory_data : pydict Z (list record)) :
  NoDup (dict_keys inventory_data) →
  ∃ avg trend,
    ReportGenerator._generate_trend_summary inventory_data
    = (trend' ← trend;
       Ok (ReportGenerator.TrendSummary (dict_keys inventory_data)
             (prod_map id length <$> inventory_data)
             (prod_map id (λ data, length (List.filter Common.is_active data))
                <$> inventory_data)
             (prod_map id
                (λ data, length (List.filter Common.is_zero_inventory data))
                <$> inventory_data)
             avg trend'))
    ∧ trend
      = (if (1 <? length (dict_keys inventory_data))%nat then
           match dict_keys inventory_data !! 0%nat,
                 last (dict_keys inventory_data) with
           | Some first_date, Some last_date =>
               active_first ←
                 ReportGenerator.dict_item first_date
                   (prod_map id
                      (λ data, length (List.filter Common.is_active data))
                      <$> inventory_data);
               active_last ←
                 ReportGenerator.dict_item last_date
                   (prod_map id
                      (λ data, length (List.filter Common.is_active data))
                      <$> inventory_data);
               Ok (ReportGenerator.trend_of active_first active_last)
           | _, _ => Raise LookupError
           end
         else Ok ReportGenerator.stable).
Proof.
  intros Hnd. unfold ReportGenerator._generate_trend_summary.
  rewrite (fold_dict_set length), (fold_dict_set (λ data, length (List.filter Common.is_active data))),
    (fold_dict_set (λ data, length (List.filter Common.is_zero_inventory data)))
    by done.
  simpl. eexists _, _. split; reflexivity.
Qed.

Lemma cons_as_snoc {A} (y : A) (l : list A) : ∃ mid z, y :: l = mid ++ [z].
Proof.
  revert y. induction l as [|x l IH]; intros y.
  - by exists [], y.
  - destruct (IH x) as (mid & z & ->). by exists (y :: mid), z.
Qed.

Lemma generate_trend_summary_ends d0 S0 mid dn Sn :
  NoDup (dict_keys ((d0, S0) :: mid ++ [(dn, Sn)])) →
  ∃ s,
    ReportGenerator._generate_trend_summary ((d0, S0) :: mid ++ [(dn, Sn)])
    = Ok s
    ∧ ReportGenerator.ts_trend s
      = ReportGenerator.trend_of
          (length (List.filter Common.is_active S0))
          (length (List.filter Common.is_active Sn)).
Proof.
  intros Hnd.
  destruct (generate_trend_summary_dicts _ Hnd) as (avg & trend & -> & ->).
  unfold dict_keys in *. rewrite fmap_cons, fmap_app in *. simpl in Hnd.
  apply NoDup_cons in Hnd as [Hd0 Hnd].
  apply NoDup_app in Hnd as (_ & Hdisj & _).
  replace (1 <? length _)%nat with true
    by (symmetry; apply Nat.ltb_lt; simpl; rewrite length_app; simpl; lia).
  simpl fst. simpl lookup.
  change ([(dn, Sn)].*1) with [dn].
  rewrite (app_comm_cons (mid.*1) [dn] d0), last_snoc.
  unfold ReportGenerator.dict_item.
  rewrite !fmap_cons, !fmap_app, !fmap_cons. cbn [prod_map id fst snd].
  rewrite dict_get_head.
  assert (d0 ≠ dn) as Hne by (intros ->; apply Hd0; set_solver).
  cbn [dict_get]. rewrite decide_False by done.
  rewrite dict_get_app_fresh, dict_get_head.
  - by eexists.
  - unfold dict_keys. rewrite <- list_fmap_compose.
    intros Hin. apply (Hdisj dn); [|set_solver].
    apply list_elem_of_fmap in Hin as ([k v] & -> & Hin).
    by apply (list_elem_of_fmap_2 fst) in Hin.
Qed.

(** C7. The trend label compares the active count of the last included
    date with that of the first: [increasing] exactly when it exceeds 1.05
    times the first, [decreasing] exactly when it is below 0.95 times the
    first, [stable] otherwise, and [stable] for at most one date; the
    active counts 100, 105 give [stable], 100, 106 give [increasing] and
    100, 94 give [decreasing]. *)
Theorem trend_label_thresholds :
  (∀ inventory_data : pydict Z (list record),
     NoDup (dict_keys inventory_data) →
     ∃ s, ReportGenerator._generate_trend_summary inventory_data = Ok s
       ∧ ((length inventory_data ≤ 1)%nat →
          ReportGenerator.ts_trend s = ReportGenerator.stable)
       ∧ ∀ d0 S0 mid dn Sn,
           inventory_data = (d0, S0) :: mid ++ [(dn, Sn)] →
           let first :=
             inject_Z (Z.of_nat (length (List.filter Common.is_active S0))) in
           let last :=
             inject_Z (Z.of_nat (length (List.filter Common.is_active Sn))) in
           (ReportGenerator.ts_trend s = ReportGenerator.increasing
            ↔ (first * (105 # 100) < last)%Q)
           ∧ (ReportGenerator.ts_trend s = ReportGenerator.decreasing
              ↔ (last < first * (95 # 100))%Q)
           ∧ (ReportGenerator.ts_trend s = ReportGenerator.stable
              ↔ ¬ (first * (105 # 100) < last)%Q
                ∧ ¬ (last < first * (95 # 100))%Q))
  ∧ (∃ s, ReportGenerator._generate_trend_summary
            [(1, active_rows 100); (2, active_rows 105)] = Ok s
        ∧ ReportGenerator.ts_active_articles s = [(1, 100%nat); (2, 105%nat)]
        ∧ ReportGenerator.ts_trend s = ReportGenerator.stable)
  ∧ (∃ s, ReportGenerator._generate_trend_summary
            [(1, active_rows 100); (2, active_rows 106)] = Ok s
        ∧ ReportGenerator.ts_active_articles s = [(1, 100%nat); (2, 106%nat)]
        ∧ ReportGenerator.ts_trend s = ReportGenerator.increasing)
  ∧ (∃ s, ReportGenerator._generate_trend_summary
            [(1, active_rows 100); (2, active_rows 94)] = Ok s
        ∧ ReportGenerator.ts_active_articles s = [(1, 100%nat); (2, 94%nat)]
        ∧ ReportGenerator.ts_trend s = ReportGenerator.decreasing).
Proof.
  split_and!.
  - intros inventory_data Hnd.
    destruct inventory_data as [|[d0 S0] [|y l]].
    + eexists. split; [reflexivity|]. split; [done|].
      intros ????? [=].
    + destruct (generate_trend_summary_dicts _ Hnd) as (avg & tr & -> & ->).
      simpl. eexists. split; [reflexivity|]. split; [done|].
      intros ? ? mid ? ? [= _ _ Hmid]. by destruct mid.
    + destruct (cons_as_snoc y l) as (mid & [dn Sn] & Hl).
      rewrite Hl in Hnd |- *.
      destruct (generate_trend_summary_ends _ _ _ _ _ Hnd)
        as (s & Hs & Htrend).
      exists s. split; [done|]. split.
      * simpl. rewrite length_app. simpl. lia.
      * intros d0' S0' mid' dn' Sn' [= <- <- Heq].
        apply app_inj_tail in Heq as [_ [= <- <-]].
        rewrite Htrend. apply trend_of_spec.
  - vm_compute. eexists. split_and!; reflexivity.
  - vm_compute. eexists. split_and!; reflexivity.
  - vm_compute. eexists. split_and!; reflexivity.
Qed.

Lemma trend_label_thresholds_witness :
  ∃ s, ReportGenerator._generate_trend_summary
         [(1, active_rows 20); (2, active_rows 20); (3, active_rows 22)]
       = Ok s
     ∧ ReportGenerator.ts_trend s = ReportGenerator.increasing.
Proof.
  destruct (proj1 trend_label_thresholds
    [(1, active_rows 20); (2, active_rows 20); (3, active_rows 22)])
    as (s & Hs & _ & H).
  - unfold dict_keys. simpl. repeat constructor; set_solver.
  - exists s. split; [exact Hs|].
    apply (H 1 (active_rows 20) [(2, active_rows 20)] 3 (active_rows 22)
             eq_refl).
    vm_compute. reflexivity.
Defined.

(** *** Loops that may raise *)

Lemma traverse_Ok {A B} (f : A → result B) (l : list A) (bs : list B) :
  traverse f l = Ok bs ↔ Forall2 (λ a b, f a = Ok b) l bs.
Proof.
  revert bs. induction l as [|a l IH]; intros bs; simpl.
  - split; [by intros [= <-]|by inversion 1].
  - destruct (f a) as [b|e] eqn:Hfa; simpl.
    + destruct (traverse f l) as [bs'|e] eqn:Htr; simpl.
      * split.
        -- intros [= <-]. constructor; [done|]. by apply IH.
        -- inversion 1 as [|? b' ? bs'' Hb Hbs]; subst.
           apply IH in Hbs. congruence.
      * split; [done|]. inversion 1 as [|? b' ? bs'' Hb Hbs]; subst.
        by apply IH in Hbs.
    + split; [done|]. inversion 1; congruence.
Qed.

Lemma traverse_total {A B} (f : A → result B) (l : list A) :
  Forall (λ a, ∃ b, f a = Ok b) l → ∃ bs, traverse f l = Ok bs.
Proof.
  induction 1 as [|a l [b Hb] _ [bs Hbs]]; [by eexists|].
  exists (b :: bs). simpl. by rewrite Hb, Hbs.
Qed.

(** *** The change columns *)

Lemma fillna0_numeric (r : record) :
  numeric_quantity r → ∃ q, Pandas.fillna0 (r !! "bestand") = VInt q.
Proof.
  unfold numeric_quantity. intros H.
  destruct (r !! "bestand") as [[|q|s]|]; simpl; eauto.
  by destruct (H s).
Qed.

Lemma well_formed_numeric (r : record) : well_formed r → numeric_quantity r.
Proof. intros (_ & _ & _ & _ & _ & q & Hq) s. by rewrite Hq. Qed.

Lemma with_changes_Ok {L R} (bl : L → Pandas.cell) (br : R → Pandas.cell)
    (j : Pandas.joined L R) (row : Common.change_row L R) :
  Common.with_changes bl br j = Ok row →
  Common.merged_row row = j
  ∧ Common.bestand_current row = Pandas.fillna0 (Pandas.j_left j ≫= bl)
  ∧ Common.bestand_previous row = Pandas.fillna0 (Pandas.j_right j ≫= br)
  ∧ change_formula row.
Proof.
  unfold Common.with_changes, change_formula.
  destruct (Pandas.fillna0 (Pandas.j_left j ≫= bl)) as [|qc|?];
    destruct (Pandas.fillna0 (Pandas.j_right j ≫= br)) as [|qp|?];
    simpl; try done.
  unfold Pandas.replace_0_1, py_eq.
  destruct (decide (qp = 0)) as [->|Hne].
  - simpl. intros [= <-]. simpl. split_and!; [done..|].
    exists qc, 0. by rewrite decide_True.
  - rewrite bool_decide_eq_false_2 by congruence. simpl.
    intros [= <-]. simpl. split_and!; [done..|].
    exists qc, qp. by rewrite decide_False.
Qed.

Lemma with_changes_numeric {L R} (bl : L → Pandas.cell) (br : R → Pandas.cell)
    (j : Pandas.joined L R) (qc qp : Z) :
  Pandas.fillna0 (Pandas.j_left j ≫= bl) = VInt qc →
  Pandas.fillna0 (Pandas.j_right j ≫= br) = VInt qp →
  ∃ pct, Common.with_changes bl br j
         = Ok (Common.ChangeRow j (VInt qc) (VInt qp) (qc - qp) pct).
Proof.
  intros Hc Hp. unfold Common.with_changes. rewrite Hc, Hp. simpl.
  unfold Pandas.replace_0_1. destruct (py_eq _ _); simpl; by eexists.
Qed.

(** *** The outer merge *)

Section MergeFacts.
Context {L R : Type} (kl : L → string) (kr : R → string).

Lemma rows_with_elem_of {A} (k : A → string) key (l : list A) x :
  x ∈ Pandas.rows_with k key l ↔ x ∈ l ∧ k x = key.
Proof.
  unfold Pandas.rows_with. rewrite elem_of_List_filter.
  by rewrite String.eqb_eq.
Qed.

Lemma rows_with_nil {A} (k : A → string) key (l : list A) :
  Pandas.rows_with k key l = [] ↔ key ∉ k <$> l.
Proof.
  split.
  - intros Hnil Hin. apply list_elem_of_fmap in Hin as (x & -> & Hx).
    assert (x ∈ Pandas.rows_with k (k x) l)
      by by apply rows_with_elem_of.
    rewrite Hnil in *. by eapply not_elem_of_nil.
  - intros Hnot. destruct (Pandas.rows_with k key l) as [|x xs] eqn:E;
      [done|].
    assert (x ∈ Pandas.rows_with k key l) by (rewrite E; left).
    destruct Hnot. apply rows_with_elem_of in H as [? <-].
    by apply list_elem_of_fmap_2.
Qed.


Lemma rows_with_NoDup {A} (k : A → string) key (l : list A) :
  NoDup (k <$> l) →
  Pandas.rows_with k key l = []
  ∨ ∃ x, Pandas.rows_with k key l = [x].
Proof.
  induction l as [|a l IH]; [by left|].
  rewrite fmap_cons. intros [Ha Hnd]%NoDup_cons.
  unfold Pandas.rows_with. simpl.
  destruct (String.eqb (k a) key) eqn:E.
  - apply String.eqb_eq in E as <-. right. exists a. f_equal.
    by apply rows_with_nil.
  - by apply IH.
Qed.

Lemma outer_keys_elem_of (ls : list L) (rs : list R) key :
  key ∈ Pandas.outer_keys kl kr ls rs
  ↔ key ∈ kl <$> ls ∨ key ∈ kr <$> rs.
Proof.
  unfold Pandas.outer_keys.
  by rewrite merge_sort_Permutation, elem_of_remove_dups, elem_of_app.
Qed.


(** Where the rows of an outer merge come from: each side of a row is a
    row of that input with the key of the row, and a side is NaN only
    when the key does not occur in that input. *)
Lemma merge_outer_sides (ls : list L) (rs : list R) j :
  j ∈ Pandas.merge_outer kl kr ls rs →
  match Pandas.j_left j with
  | Some x => x ∈ ls ∧ kl x = Pandas.j_key j
  | None => Pandas.j_key j ∉ kl <$> ls
  end
  ∧ match Pandas.j_right j with
    | Some y => y ∈ rs ∧ kr y = Pandas.j_key j
    | None => Pandas.j_key j ∉ kr <$> rs
    end
  ∧ (is_Some (Pandas.j_left j) ∨ is_Some (Pandas.j_right j)).
Proof.
  unfold Pandas.merge_outer. intros Hj.
  apply list_elem_of_bind in Hj as (key & Hj & _).
  unfold Pandas.join_group in Hj.
  destruct (Pandas.rows_with kl key ls) as [|x0 xs] eqn:El;
    destruct (Pandas.rows_with kr key rs) as [|y0 ys] eqn:Er.
  - by apply not_elem_of_nil in Hj.
  - apply list_elem_of_fmap in Hj as (y & -> & Hy). simpl.
    rewrite <- Er in Hy. apply rows_with_elem_of in Hy.
    split; [by apply rows_with_nil|]. split; [done|right; by eexists].
  - apply list_elem_of_fmap in Hj as (x & -> & Hx). simpl.
    rewrite <- El in Hx. apply rows_with_elem_of in Hx.
    split; [done|]. split; [by apply rows_with_nil|left; by eexists].
  - apply list_elem_of_bind in Hj as (x & Hj & Hx).
    apply list_elem_of_fmap in Hj as (y & -> & Hy). simpl.
    rewrite <- El in Hx. rewrite <- Er in Hy.
    apply rows_with_elem_of in Hx. apply rows_with_elem_of in Hy.
    split; [done|]. split; [done|left; by eexists].
Qed.






End MergeFacts.

(** *** The merged frame of both classes

    [merged_changes] of either class is the same computation on rows with
    different columns; the facts below hold for any selection of columns
    that keeps the key and the quantity. *)

Section MergedChanges.
Context {L R : Type} (kl : L → string) (kr : R → string)
  (bl : L → Pandas.cell) (br : R → Pandas.cell)
  (sel : record → L) (sel' : record → R).
Hypothesis Hkl : ∀ r, kl (sel r) = Common.key_of r.
Hypothesis Hkr : ∀ r, kr (sel' r) = Common.key_of r.
Hypothesis Hbl : ∀ r, bl (sel r) = r !! "bestand".
Hypothesis Hbr : ∀ r, br (sel' r) = r !! "bestand".

Let merged (current_data previous_data : list record) :=
  traverse (Common.with_changes bl br)
    (Pandas.merge_outer kl kr (sel <$> current_data)
       (sel' <$> previous_data)).

Lemma merged_formula current_data previous_data rows :
  merged current_data previous_data = Ok rows →
  Forall change_formula rows.
Proof.
  intros H%traverse_Ok. induction H as [|j row js rows Hj _ IH]; [done|].
  constructor; [|done]. by apply with_changes_Ok in Hj as (_ & _ & _ & ?).
Qed.

Lemma merged_total current_data previous_data :
  Forall numeric_quantity current_data →
  Forall numeric_quantity previous_data →
  ∃ rows, merged current_data previous_data = Ok rows.
Proof.
  intros Hc Hp. apply traverse_total, Forall_forall. intros j Hj.
  apply merge_outer_sides in Hj as (Hl & Hr & _).
  assert (∃ qc, Pandas.fillna0 (Pandas.j_left j ≫= bl) = VInt qc)
    as [qc Hqc].
  { destruct (Pandas.j_left j) as [x|]; [|by exists 0].
    destruct Hl as [(r & -> & Hr')%list_elem_of_fmap _]. simpl.
    rewrite Hbl. apply fillna0_numeric.
    by eapply Forall_forall in Hc. }
  assert (∃ qp, Pandas.fillna0 (Pandas.j_right j ≫= br) = VInt qp)
    as [qp Hqp].
  { destruct (Pandas.j_right j) as [y|]; [|by exists 0].
    destruct Hr as [(r & -> & Hr')%list_elem_of_fmap _]. simpl.
    rewrite Hbr. apply fillna0_numeric.
    by eapply Forall_forall in Hp. }
  destruct (with_changes_numeric bl br j qc qp Hqc Hqp) as [pct Hpct].
  eauto.
Qed.


End MergedChanges.

(** *** The two diff methods on frames with all columns *)


Lemma columns_present_elem_of (data : list record) (cols : list string) :
  columns_present data →
  cols ⊆ ["artikel_id"; "artikelnummer"; "bezeichnung"; "status"; "lager_id";
          "bestand"] →
  Forall (λ c, Pandas.has_column data c = true) cols.
Proof.
  intros Hp Hsub. apply Forall_forall. intros c Hc.
  unfold columns_present in Hp. rewrite Forall_forall in Hp.
  apply Hp, Hsub, Hc.
Qed.

Lemma calculate_changes_present thr current_data previous_data :
  columns_present current_data → columns_present previous_data →
  ReportGenerator._calculate_changes thr current_data previous_data
  = (merged ← ReportGenerator.merged_changes current_data previous_data;
     Ok (ReportGenerator.Changes
           (length merged)
           (length (List.filter (λ m, 0 <? Common.change m) merged))
           (length (List.filter (λ m, Common.change m <? 0) merged))
           (length (List.filter (λ m, Common.change m =? 0) merged))
           (List.filter (Common.significant thr) merged))).
Proof.
  intros Hc Hp. unfold ReportGenerator._calculate_changes.
  rewrite !require_columns_present; [done|..];
    (eapply columns_present_elem_of; [eassumption|set_solver]).
Qed.

Lemma compare_inventory_levels_present thr current_data previous_data :
  columns_present current_data → columns_present previous_data →
  InventoryTracker.compare_inventory_levels thr current_data previous_data
  = (merged ← InventoryTracker.merged_changes current_data previous_data;
     Ok (InventoryTracker.ChangeReport (length current_data)
           (length (List.filter (Common.significant thr) merged))
           (List.filter (Common.significant thr) merged))).
Proof.
  intros Hc Hp. unfold InventoryTracker.compare_inventory_levels.
  assert (∀ data, columns_present data →
            forallb (Pandas.has_column data)
              InventoryTracker.required_columns = true) as Hreq.
  { intros data Hd. apply forallb_forall. intros c Hin.
    apply list_elem_of_In in Hin.
    assert (Forall (λ c, Pandas.has_column data c = true)
              InventoryTracker.required_columns) as Hall.
    { eapply columns_present_elem_of; [done|].
      unfold InventoryTracker.required_columns. set_solver. }
    rewrite Forall_forall in Hall. by apply Hall. }
  rewrite !Hreq by done. simpl negb. simpl orb. cbv iota.
  rewrite !require_columns_present; [done|..];
    (eapply columns_present_elem_of; [eassumption|set_solver]).
Qed.



(** *** Rows without change *)



Lemma List_filter_all {A} (p : A → bool) (l : list A) :
  Forall (λ x, p x = true) l → List.filter p l = l.
Proof. induction 1 as [|x l Hx _ IH]; [done|]. simpl. by rewrite Hx, IH. Qed.




(** *** The key of a row *)










(** *** The trend report and its category filter *)

(** The summary of a trend report is computed before the category filter
    is applied, so it is the summary of the report without a category. *)
Lemma trend_summary_ignores_category history_days now store
    start_date end_date category :
  ReportGenerator.summary <$>
    ReportGenerator.generate_trend_report history_days now store
      start_date end_date category
  = ReportGenerator.summary <$>
      ReportGenerator.generate_trend_report history_days now store
        start_date end_date None.
Proof.
  unfold ReportGenerator.generate_trend_report.
  destruct (ReportGenerator.collect _ _ _) as [|day days]; [done|].
  by destruct (ReportGenerator._generate_trend_summary _).
Qed.

(** C1, on the code.  With the category filter Kabel and a day that has one
    row of that category and one of another, the report carries the
    category, its charts count the one row of the category, but its summary
    counts both rows: it is the summary of the unfiltered snapshot, not the
    one that the filtered snapshot gives. *)
Theorem trend_summary_not_filtered :
  ∃ rep filtered_summary,
    ReportGenerator.generate_trend_report 30 100 two_category_store
      None None (Some "Kabel") = Some rep
    ∧ ReportGenerator.category rep = Some "Kabel"
    ∧ ReportGenerator.chart_series <$> ReportGenerator.charts rep
      = [[(99, 1%nat)]; [(99, 1%nat)]]
    ∧ ReportGenerator.ts_total_articles (ReportGenerator.summary rep)
      = [(99, 2%nat)]
    ∧ ReportGenerator.ts_active_articles (ReportGenerator.summary rep)
      = [(99, 2%nat)]
    ∧ ReportGenerator.ts_zero_inventory (ReportGenerator.summary rep)
      = [(99, 2%nat)]
    ∧ ReportGenerator._generate_trend_summary
        [(99, [inventory_record 1 "K-100" "Kabelbinder" "Kabel" "aktiv"
                 0 "A"])]
      = Ok filtered_summary
    ∧ ReportGenerator.ts_total_articles filtered_summary = [(99, 1%nat)]
    ∧ ReportGenerator.summary rep ≠ filtered_summary.
Proof.
  eexists _, _. split_and!; [vm_compute; reflexivity..|].
  intros H%(f_equal ReportGenerator.ts_total_articles).
  vm_compute in H. discriminate.
Qed.

(** * Further properties of the tracker *)

(** *** The clock *)

Lemma day_of_bounds (t : Z) :
  Clock.midnight (Clock.day_of t) ≤ t < Clock.midnight (Clock.day_of t + 1).
Proof.
  unfold Clock.midnight, Clock.day_of, Clock.microseconds_per_day.
  pose proof (Z.mul_div_le t 86400000000).
  pose proof (Z.mul_succ_div_gt t 86400000000). lia.
Qed.

Lemma day_of_minus_days (t n : Z) :
  Clock.day_of (Clock.minus_days t n) = Clock.day_of t - n.
Proof.
  unfold Clock.day_of, Clock.minus_days, Clock.microseconds_per_day.
  replace (t - n * 86400000000) with (t + (- n) * 86400000000) by lia.
  rewrite Z.div_add by lia. lia.
Qed.

Lemma midnight_before_cutoff (day max_data_age now : Z) :
  Clock.midnight day < Clock.minus_days now max_data_age
  ↔ day + max_data_age < Clock.day_of now
    ∨ (day + max_data_age = Clock.day_of now
       ∧ Clock.midnight (Clock.day_of now) < now).
Proof.
  pose proof (day_of_bounds now) as Hb. revert Hb.
  unfold Clock.midnight, Clock.minus_days, Clock.microseconds_per_day.
  generalize (Clock.day_of now). intros d Hb. nia.
Qed.

(** *** Cleaning the store *)

Lemma clean_old_data_fold (cutoff : Z) (st0 m : gmap Z (list record)) :
  let r :=
    map_fold
      (λ file_date (_ : list record) '(store, deleted_count),
         if decide (Clock.midnight file_date < cutoff)
         then (delete file_date store, S deleted_count)
         else (store, deleted_count))
      (st0, 0%nat) m in
  (∀ day, r.1 !! day
          = if decide (Clock.midnight day < cutoff ∧ is_Some (m !! day))
            then None else st0 !! day)
  ∧ r.2 = size (filter (λ kv, Clock.midnight kv.1 < cutoff) m).
Proof.
  cbv zeta.
  pose (P := λ (r : gmap Z (list record) * nat) (m : gmap Z (list record)),
    (∀ day, r.1 !! day
            = if decide (Clock.midnight day < cutoff ∧ is_Some (m !! day))
              then None else st0 !! day)
    ∧ r.2 = size (filter (λ kv : Z * list record,
                            Clock.midnight kv.1 < cutoff) m)).
  revert m. apply (map_fold_weak_ind P); unfold P.
  - split.
    + intros day. rewrite decide_False; [done|].
      rewrite lookup_empty. by intros [_ [? [=]]].
    + by rewrite map_filter_empty, map_size_empty.
  - intros i x m' [st n] Hi [Hst Hn]. simpl in Hst, Hn.
    destruct (decide (Clock.midnight i < cutoff)) as [Hold|Hnew]; simpl.
    + split.
      * intros day. destruct (decide (day = i)) as [->|Hne].
        -- rewrite lookup_delete_eq, decide_True; [done|].
           rewrite lookup_insert_eq. eauto.
        -- rewrite lookup_delete_ne, Hst by done.
           rewrite lookup_insert_ne by done. done.
      * rewrite map_filter_insert_True by done.
        rewrite map_size_insert_None; [by rewrite Hn|].
        apply map_lookup_filter_None. by left.
    + split.
      * intros day. rewrite Hst. destruct (decide (day = i)) as [->|Hne].
        -- rewrite !decide_False; [done|tauto|tauto].
        -- by rewrite lookup_insert_ne.
      * rewrite map_filter_insert_not; [done|]. by intros y.
Qed.

Lemma clean_old_data_lookup max_data_age now (store : gmap Z (list record))
    day :
  (InventoryTracker._clean_old_data max_data_age now store).1 !! day
  = if decide (Clock.midnight day < Clock.minus_days now max_data_age)
    then None else store !! day.
Proof.
  unfold InventoryTracker._clean_old_data.
  destruct (clean_old_data_fold (Clock.minus_days now max_data_age)
              store store) as [H _].
  rewrite H. destruct (store !! day) as [x|] eqn:E.
  - destruct (decide (Clock.midnight day < _)); [|by rewrite decide_False by tauto].
    rewrite decide_True; eauto.
  - rewrite decide_False by (intros [_ [? [=]]]). by destruct (decide _).
Qed.

Lemma clean_old_data_as_filter max_data_age now
    (store : gmap Z (list record)) :
  InventoryTracker._clean_old_data max_data_age now store
  = (filter
       (λ kv, ¬ Clock.midnight kv.1 < Clock.minus_days now max_data_age)
       store,
     size (filter
             (λ kv, Clock.midnight kv.1 < Clock.minus_days now max_data_age)
             store)).
Proof.
  apply injective_projections; simpl.
  - apply map_eq. intros day. rewrite clean_old_data_lookup.
    apply option_eq. intros x. rewrite map_lookup_filter_Some. simpl.
    destruct (decide _); naive_solver.
  - unfold InventoryTracker._clean_old_data.
    by destruct (clean_old_data_fold (Clock.minus_days now max_data_age)
                   store store) as [_ ->].
Qed.

(** X1. [_clean_old_data] deletes exactly the files whose day lies more
    than [max_data_age] days before the day of the clock, and the file
    that is exactly [max_data_age] days old unless the clock stands at
    midnight; every other file keeps its content, the number returned is
    the number of files that are gone, and a second run at the same clock
    deletes nothing. *)
Theorem clean_old_data_by_age (max_data_age now : Z)
    (store : gmap Z (list record)) :
  let out := InventoryTracker._clean_old_data max_data_age now store in
  (∀ day,
     out.1 !! day
     = if decide (day + max_data_age < Clock.day_of now
                  ∨ (day + max_data_age = Clock.day_of now
                     ∧ Clock.midnight (Clock.day_of now) < now))
       then None else store !! day)
  ∧ (size out.1 + out.2 = size store)%nat
  ∧ InventoryTracker._clean_old_data max_data_age now out.1 = (out.1, 0%nat).
Proof.
  cbv zeta. split_and!.
  - intros day. rewrite clean_old_data_lookup.
    pose proof (midnight_before_cutoff day max_data_age now) as H.
    destruct (decide (Clock.midnight day < _));
      destruct (decide (_ ∨ _)); tauto.
  - rewrite clean_old_data_as_filter. simpl.
    rewrite Nat.add_comm, <- map_size_disj_union
      by apply map_disjoint_filter_complement.
    by rewrite map_filter_union_complement.
  - rewrite (clean_old_data_as_filter _ _ store). simpl.
    rewrite clean_old_data_as_filter. f_equal.
    + apply map_filter_filter_r. tauto.
    + apply map_size_empty_iff, map_empty_filter.
      intros day x [_ Hnew]%map_lookup_filter_Some. done.
Qed.

Lemma store_daily_data_lookup (max_data_age now now_clean : Z)
    (inventory_data : list record) (store : gmap Z (list record)) day :
  (InventoryTracker.store_daily_data max_data_age now now_clean
     inventory_data store).2 !! day
  = if decide (Clock.midnight day < Clock.minus_days now_clean max_data_age)
    then None
    else <[Clock.day_of now := inventory_data]> store !! day.
Proof.
  unfold InventoryTracker.store_daily_data. simpl.
  apply clean_old_data_lookup.
Qed.

Lemma cutoff_after_midnight (day max_data_age now_clean : Z) :
  Clock.midnight day < Clock.minus_days now_clean max_data_age
  ↔ ¬ now_clean ≤ Clock.midnight (day + max_data_age).
Proof.
  unfold Clock.midnight, Clock.minus_days, Clock.microseconds_per_day. lia.
Qed.

(** X2. After [store_daily_data] the snapshot of the day of the file name
    is the list that was stored, provided the clean-up reads the clock no
    later than [max_data_age] days after the start of that day; otherwise
    (for instance with [max_data_age = 0] at any time after midnight) the
    file that was just written is deleted again and the snapshot is
    empty. *)
Theorem store_daily_data_round_trip (max_data_age now now_clean : Z)
    (inventory_data : list record) (store : gmap Z (list record)) :
  InventoryTracker.retrieve_historical_data
    (InventoryTracker.store_daily_data max_data_age now now_clean
       inventory_data store).2
    (Clock.day_of now)
  = if decide (now_clean
               ≤ Clock.midnight (Clock.day_of now + max_data_age))
    then inventory_data else [].
Proof.
  unfold InventoryTracker.retrieve_historical_data.
  rewrite store_daily_data_lookup, lookup_insert_eq.
  pose proof (cutoff_after_midnight (Clock.day_of now) max_data_age now_clean).
  destruct (decide (_ < _)); destruct (decide (_ ≤ _)); simpl; tauto.
Qed.

(** *** The daily run *)

Lemma detect_deactivations_present (current_data previous_data : list record) :
  columns_present current_data → columns_present previous_data →
  InventoryTracker.detect_deactivations current_data previous_data
  = Ok (Common.deactivated current_data previous_data).
Proof.
  intros Hc Hp. unfold InventoryTracker.detect_deactivations.
  assert (∀ data c, columns_present data →
            c ∈ ["artikel_id"; "status"] →
            Pandas.has_column data c = true) as Hcol.
  { intros data c Hd Hin.
    pose proof (columns_present_elem_of data ["artikel_id"; "status"] Hd)
      as Hall.
    rewrite Forall_forall in Hall. apply Hall; [set_solver|done]. }
  rewrite !Hcol by (done || set_solver). simpl.
  rewrite !require_columns_present; [done|..];
    (eapply columns_present_elem_of; [eassumption|set_solver]).
Qed.

Lemma compare_inventory_levels_total thr current_data previous_data :
  columns_present current_data → columns_present previous_data →
  Forall numeric_quantity current_data →
  Forall numeric_quantity previous_data →
  ∃ rep, InventoryTracker.compare_inventory_levels thr
           current_data previous_data = Ok rep.
Proof.
  intros Hc Hp Hnc Hnp. rewrite compare_inventory_levels_present by done.
  destruct (merged_total InventoryTracker.cur_key InventoryTracker.prev_key
              InventoryTracker.cur_bestand InventoryTracker.prev_bestand
              InventoryTracker.select_current
              InventoryTracker.select_previous (λ _, eq_refl) (λ _, eq_refl)
              _ _ Hnc Hnp) as [rows Hrows].
  unfold InventoryTracker.merged_changes. rewrite Hrows. simpl. by eexists.
Qed.

(** X3. A run of [track_daily_inventory] that returns [False] leaves the
    snapshot store as it was: nothing is written when the query gave no
    rows or when a comparison raised. *)
Theorem track_daily_inventory_failure_keeps_store
    (thr max_data_age now now_store now_clean : Z)
    (inventory_data : list record) (store : gmap Z (list record)) :
  (InventoryTracker.track_daily_inventory thr max_data_age
     now now_store now_clean inventory_data store).1 = false →
  (InventoryTracker.track_daily_inventory thr max_data_age
     now now_store now_clean inventory_data store).2 = store.
Proof.
  unfold InventoryTracker.track_daily_inventory.
  destruct inventory_data as [|r data]; [done|].
  by destruct (match InventoryTracker.retrieve_historical_data _ _ with
               | [] => _ | _ => _ end).
Qed.

Lemma track_daily_inventory_failure_keeps_store_witness :
  (InventoryTracker.track_daily_inventory 10 90 172800000001 172800000002
     172800000003 [] two_category_store).2
  = two_category_store.
Proof.
  apply (track_daily_inventory_failure_keeps_store 10 90 172800000001
           172800000002 172800000003 [] two_category_store).
  reflexivity.
Defined.

(** X4. A run on rows that were queried succeeds whenever the store has no
    snapshot for yesterday, and also whenever both snapshots have all
    columns and numeric quantities; it then returns [True], and the rows
    are the snapshot of the day of the file name as long as the clean-up
    does not delete it (see X2). *)
Theorem track_daily_inventory_stores
    (thr max_data_age now now_store now_clean : Z)
    (inventory_data : list record) (store : gmap Z (list record)) :
  inventory_data ≠ [] →
  let yesterday_data :=
    InventoryTracker.retrieve_historical_data store (Clock.day_of now - 1) in
  yesterday_data = []
  ∨ (columns_present inventory_data ∧ columns_present yesterday_data
     ∧ Forall numeric_quantity inventory_data
     ∧ Forall numeric_quantity yesterday_data) →
  now_clean ≤ Clock.midnight (Clock.day_of now_store + max_data_age) →
  let out :=
    InventoryTracker.track_daily_inventory thr max_data_age
      now now_store now_clean inventory_data store in
  out.1 = true
  ∧ InventoryTracker.retrieve_historical_data out.2 (Clock.day_of now_store)
    = inventory_data.
Proof.
  intros Hdata yesterday_data Hy Hclean. cbv zeta.
  unfold InventoryTracker.track_daily_inventory.
  destruct inventory_data as [|r data]; [done|].
  rewrite day_of_minus_days. fold yesterday_data.
  assert (∃ u, match yesterday_data with
               | [] => Ok tt
               | _ :: _ =>
                   InventoryTracker.compare_inventory_levels thr (r :: data)
                     yesterday_data;;
                   InventoryTracker.detect_deactivations (r :: data)
                     yesterday_data;;
                   Ok tt
               end = Ok u) as [u ->].
  { destruct Hy as [->|(Hc & Hp & Hnc & Hnp)]; [by eexists|].
    destruct yesterday_data as [|y ys]; [by eexists|].
    destruct (compare_inventory_levels_total thr _ _ Hc Hp Hnc Hnp)
      as [rep ->].
    rewrite detect_deactivations_present by done. by eexists. }
  split; [done|].
  unfold InventoryTracker.retrieve_historical_data,
    InventoryTracker.store_daily_data. simpl.
  rewrite clean_old_data_lookup, lookup_insert_eq.
  rewrite decide_False; [done|].
  intros Hold%cutoff_after_midnight. by apply Hold.
Qed.

Lemma track_daily_inventory_stores_witness :
  InventoryTracker.retrieve_historical_data
    (InventoryTracker.track_daily_inventory 10 90
       (Clock.midnight 100 + 5) (Clock.midnight 100 + 6)
       (Clock.midnight 100 + 7)
       [inventory_record 1 "K-100" "Kabelbinder" "Kabel" "aktiv" 4 "A"]
       two_category_store).2
    100
  = [inventory_record 1 "K-100" "Kabelbinder" "Kabel" "aktiv" 4 "A"].
Proof.
  apply (track_daily_inventory_stores 10 90
           (Clock.midnight 100 + 5) (Clock.midnight 100 + 6)
           (Clock.midnight 100 + 7)
           [inventory_record 1 "K-100" "Kabelbinder" "Kabel" "aktiv" 4 "A"]
           two_category_store).
  - discriminate.
  - right. vm_compute. split_and!; repeat constructor; discriminate.
  - vm_compute. discriminate.
Defined.

(** X5. When both snapshots pass the guard of [compare_inventory_levels]
    but the rows of today have no [bezeichnung] column, the comparison
    raises KeyError for that column, the run returns [False] and the rows
    of today are not stored. *)
Theorem track_daily_inventory_aborts
    (thr max_data_age now now_store now_clean : Z)
    (inventory_data : list record) (store : gmap Z (list record)) :
  let yesterday_data :=
    InventoryTracker.retrieve_historical_data store (Clock.day_of now - 1) in
  yesterday_data ≠ [] →
  forallb (Pandas.has_column inventory_data)
    InventoryTracker.required_columns = true →
  forallb (Pandas.has_column yesterday_data)
    InventoryTracker.required_columns = true →
  Pandas.has_column inventory_data "bezeichnung" = false →
  InventoryTracker.compare_inventory_levels thr inventory_data yesterday_data
  = Raise (KeyError ["bezeichnung"])
  ∧ InventoryTracker.track_daily_inventory thr max_data_age
      now now_store now_clean inventory_data store
    = (false, store).
Proof.
  intros yesterday_data Hy Hgc Hgp Hbez.
  assert (InventoryTracker.compare_inventory_levels thr inventory_data
            yesterday_data = Raise (KeyError ["bezeichnung"])) as Hcmp.
  { unfold InventoryTracker.compare_inventory_levels.
    rewrite Hgc, Hgp. simpl negb. simpl orb. cbv iota.
    assert (Pandas.require_columns inventory_data
              ["artikelnummer"; "bestand"; "bezeichnung"]
            = Raise (KeyError ["bezeichnung"])) as ->; [|done].
    unfold Pandas.require_columns, Pandas.missing_columns.
    cbn [List.filter]. rewrite forallb_forall in Hgc.
    assert (Pandas.has_column inventory_data "artikelnummer" = true) as ->
      by (apply Hgc; unfold InventoryTracker.required_columns; simpl; tauto).
    assert (Pandas.has_column inventory_data "bestand" = true) as ->
      by (apply Hgc; unfold InventoryTracker.required_columns; simpl; tauto).
    simpl. by rewrite Hbez. }
  split; [done|].
  unfold InventoryTracker.track_daily_inventory.
  destruct inventory_data as [|r data]; [done|].
  rewrite day_of_minus_days. fold yesterday_data. rewrite Hcmp.
  by destruct yesterday_data.
Qed.

Lemma track_daily_inventory_aborts_witness :
  InventoryTracker.track_daily_inventory 10 90
    (Clock.midnight 100 + 5) (Clock.midnight 100 + 6) (Clock.midnight 100 + 7)
    [delete "bezeichnung"
       (inventory_record 1 "K-100" "Kabelbinder" "Kabel" "aktiv" 4 "A")]
    two_category_store
  = (false, two_category_store).
Proof.
  apply (track_daily_inventory_aborts 10 90
    (Clock.midnight 100 + 5) (Clock.midnight 100 + 6) (Clock.midnight 100 + 7)
    [delete "bezeichnung"
       (inventory_record 1 "K-100" "Kabelbinder" "Kabel" "aktiv" 4 "A")]
    two_category_store).
  - vm_compute. discriminate.
  - reflexivity.
  - reflexivity.
  - reflexivity.
Defined.

(** * Properties of the scheduler *)

Lemma handle_task_failure_Ok (retry_attempts retry_interval task_id : Z)
    (s : TaskScheduler.state) :
  let n := default 0 (TaskScheduler.task_failures s !! task_id) + 1 in
  TaskScheduler.handle_task_failure retry_attempts retry_interval task_id s
  = Ok (if n <? retry_attempts
        then TaskScheduler.State (TaskScheduler.current_task_id s)
               (<[task_id := n]> (TaskScheduler.task_failures s))
               (<[(task_id, n) := retry_interval * n]>
                  (TaskScheduler.retry_jobs s))
               (TaskScheduler.notifications s)
        else TaskScheduler.State (TaskScheduler.current_task_id s)
               (<[task_id := n]> (TaskScheduler.task_failures s))
               (TaskScheduler.retry_jobs s)
               (TaskScheduler.notifications s ++ [(task_id, TaskScheduler.failed)])).
Proof.
  cbv zeta. unfold TaskScheduler.handle_task_failure.
  destruct (TaskScheduler.task_failures s !! task_id) as [c|] eqn:E;
    rewrite ?E, ?lookup_insert_eq; simpl default;
    rewrite ?insert_insert_eq;
    destruct (_ <? _); [|done| |done];
    unfold TaskScheduler.retry_failed_task; simpl;
    by rewrite lookup_insert_eq.
Qed.

Lemma replicate_snoc {A} (n : nat) (x : A) :
  replicate (S n) x = replicate n x ++ [x].
Proof. induction n as [|n IH]; [done|]. simpl in *. by rewrite <- IH. Qed.

(** X6. Failures of one task id in a row: the count of the task grows by
    one per failure and the other counts stay; for each attempt below
    [retry_attempts] one retry job is scheduled, waiting [retry_interval]
    times the number of the attempt; from attempt [retry_attempts] on
    every failure is notified as failed and no job is added. *)
Theorem consecutive_failures (retry_attempts retry_interval task_id : Z)
    (n : nat) (s : TaskScheduler.state) :
  let c := default 0 (TaskScheduler.task_failures s !! task_id) in
  ∃ s',
    fail_repeatedly retry_attempts retry_interval task_id n s = Ok s'
    ∧ default 0 (TaskScheduler.task_failures s' !! task_id) = c + Z.of_nat n
    ∧ (∀ other, other ≠ task_id →
         TaskScheduler.task_failures s' !! other
         = TaskScheduler.task_failures s !! other)
    ∧ (∀ job,
         TaskScheduler.retry_jobs s' !! job
         = if decide (job.1 = task_id ∧ c < job.2 ≤ c + Z.of_nat n
                      ∧ job.2 < retry_attempts)
           then Some (retry_interval * job.2)
           else TaskScheduler.retry_jobs s !! job)
    ∧ TaskScheduler.notifications s'
      = TaskScheduler.notifications s
        ++ replicate
             (Z.to_nat (c + Z.of_nat n - Z.max c (retry_attempts - 1)))
             (task_id, TaskScheduler.failed).
Proof.
  cbv zeta. induction n as [|n (s1 & Hs1 & Hc & Hother & Hjobs & Hnotes)].
  - exists s. split_and!; [done|lia|done| |].
    + intros job. rewrite decide_False; [done|lia].
    + replace (Z.to_nat _) with 0%nat by lia. simpl. by rewrite app_nil_r.
  - simpl fail_repeatedly. rewrite Hs1. simpl.
    rewrite handle_task_failure_Ok. cbv zeta. rewrite Hc.
    set (c := default 0 (TaskScheduler.task_failures s !! task_id)) in *.
    eexists. split; [reflexivity|].
    destruct (c + Z.of_nat n + 1 <? retry_attempts) eqn:Hlt;
      [apply Z.ltb_lt in Hlt|apply Z.ltb_ge in Hlt]; simpl.
    + split_and!.
      * rewrite lookup_insert_eq. simpl. lia.
      * intros other Hne. rewrite lookup_insert_ne by done. by apply Hother.
      * intros [t i]. simpl.
        destruct (decide ((t, i) = (task_id, c + Z.of_nat n + 1)))
          as [[= -> ->]|Hne].
        -- rewrite lookup_insert_eq, decide_True; [done|lia].
        -- rewrite lookup_insert_ne, Hjobs by done. simpl.
           destruct (decide (t = task_id ∧ c < i ≤ c + Z.of_nat n ∧ _))
             as [Hd|Hd].
           ++ rewrite decide_True; [done|lia].
           ++ rewrite decide_False; [done|].
              intros (-> & Hi & Hr). apply Hd.
              assert (i ≠ c + Z.of_nat n + 1) by congruence. lia.
      * rewrite Hnotes. f_equal. f_equal. lia.
    + split_and!.
      * rewrite lookup_insert_eq. simpl. lia.
      * intros other Hne. rewrite lookup_insert_ne by done. by apply Hother.
      * intros [t i]. rewrite Hjobs. simpl.
        destruct (decide (t = task_id ∧ c < i ≤ c + Z.of_nat n ∧ _))
          as [Hd|Hd].
        -- rewrite decide_True; [done|lia].
        -- rewrite decide_False; [done|]. lia.
      * rewrite Hnotes, <- app_assoc. f_equal.
        replace (Z.to_nat (c + Z.of_nat (S n) - Z.max c (retry_attempts - 1)))
          with (S (Z.to_nat (c + Z.of_nat n - Z.max c (retry_attempts - 1))))
          by lia.
        by rewrite replicate_snoc.
Qed.

Lemma track_daily_inventory_false
    (thr max_data_age now now_store now_clean : Z)
    (inventory_data : list record) (store : gmap Z (list record)) :
  (InventoryTracker.track_daily_inventory thr max_data_age
     now now_store now_clean inventory_data store).1 = false →
  InventoryTracker.track_daily_inventory thr max_data_age
    now now_store now_clean inventory_data store = (false, store).
Proof.
  unfold InventoryTracker.track_daily_inventory.
  destruct inventory_data as [|r data]; [done|].
  by destruct (match InventoryTracker.retrieve_historical_data _ _ with
               | [] => _ | _ => _ end).
Qed.

Lemma execute_task_fresh_failure (retry_attempts retry_interval : Z)
    (thr max_data_age : Z) (r : run) (store : gmap Z (list record))
    (s : TaskScheduler.state) :
  1 < retry_attempts →
  TaskScheduler.task_failures s !! run_task_id r = None →
  (InventoryTracker.track_daily_inventory thr max_data_age (run_now r)
     (run_now_store r) (run_now_clean r) (run_rows r) store).1 = false →
  TaskScheduler.execute_task retry_attempts retry_interval thr max_data_age
    (run_now_task r) (run_now r) (run_now_store r) (run_now_clean r)
    (run_rows r) (store, s)
  = Ok (false,
        (store,
         TaskScheduler.State (Some (run_task_id r))
           (<[run_task_id r := 1]> (TaskScheduler.task_failures s))
           (<[(run_task_id r, 1) := retry_interval]>
              (TaskScheduler.retry_jobs s))
           (TaskScheduler.notifications s))).
Proof.
  intros Hra Hfresh Hfail. unfold TaskScheduler.execute_task.
  rewrite (track_daily_inventory_false _ _ _ _ _ _ _ Hfail).
  rewrite handle_task_failure_Ok. cbv zeta. simpl.
  fold (run_task_id r). rewrite Hfresh. simpl.
  change (0 + 1) with 1. rewrite Z.mul_1_r.
  by replace (1 <? retry_attempts) with true
    by (symmetry; by apply Z.ltb_lt).
Qed.

(** X7. Every run of [execute_task] takes its task id from the clock, so
    failing runs in different seconds are each counted as a first attempt:
    with [retry_attempts] above 1, after any number of such runs every
    task id has the count 1 and a retry job waiting [retry_interval]
    minutes, no run has been notified as failed, and the snapshot store is
    as it was. *)
Theorem failing_runs_are_first_attempts
    (retry_attempts retry_interval thr max_data_age : Z) (runs : list run)
    (store : gmap Z (list record)) (s : TaskScheduler.state) :
  1 < retry_attempts →
  NoDup (run_task_id <$> runs) →
  Forall (λ r, TaskScheduler.task_failures s !! run_task_id r = None) runs →
  Forall
    (λ r, (InventoryTracker.track_daily_inventory thr max_data_age
             (run_now r) (run_now_store r) (run_now_clean r) (run_rows r)
             store).1 = false)
    runs →
  ∃ s',
    execute_tasks retry_attempts retry_interval thr max_data_age runs
      (store, s)
    = Ok (replicate (length runs) false, (store, s'))
    ∧ TaskScheduler.notifications s' = TaskScheduler.notifications s
    ∧ (∀ task_id,
         TaskScheduler.task_failures s' !! task_id
         = if decide (task_id ∈ run_task_id <$> runs) then Some 1
           else TaskScheduler.task_failures s !! task_id)
    ∧ (∀ job,
         TaskScheduler.retry_jobs s' !! job
         = if decide (job.1 ∈ run_task_id <$> runs ∧ job.2 = 1)
           then Some retry_interval
           else TaskScheduler.retry_jobs s !! job).
Proof.
  intros Hra. revert s.
  induction runs as [|r runs IH]; intros s Hnd Hfresh Hfail.
  - exists s. split_and!; [done|done| |].
    + intros task_id. rewrite decide_False; [done|]. set_solver.
    + intros job. rewrite decide_False; [done|]. set_solver.
  - rewrite fmap_cons in Hnd. apply NoDup_cons in Hnd as [Hr Hnd].
    apply Forall_cons in Hfresh as [Hfr Hfresh].
    apply Forall_cons in Hfail as [Hfl Hfail].
    cbn [execute_tasks].
    rewrite (execute_task_fresh_failure _ _ _ _ _ _ _ Hra Hfr Hfl).
    cbn [mbind result_bind].
    destruct (IH (TaskScheduler.State (Some (run_task_id r))
                    (<[run_task_id r := 1]> (TaskScheduler.task_failures s))
                    (<[(run_task_id r, 1) := retry_interval]>
                       (TaskScheduler.retry_jobs s))
                    (TaskScheduler.notifications s)))
      as (s' & -> & Hnotes & Hcount & Hjobs); [done| |done|].
    + eapply Forall_impl;
        [apply Forall_and; split; [exact Hfresh|apply Forall_forall]|].
      * intros r' Hr'. exact Hr'.
      * intros r' [Hf Hin]. simpl. rewrite lookup_insert_ne; [done|].
        intros Heq. apply Hr. rewrite Heq. by apply list_elem_of_fmap_2.
    + exists s'. split_and!; [by rewrite length_cons|done| |].
      * intros task_id. rewrite Hcount.
        cbn [TaskScheduler.task_failures]. rewrite fmap_cons.
        destruct (decide (task_id ∈ run_task_id <$> runs)) as [Hin|Hin].
        -- rewrite decide_True; [done|]. by right.
        -- destruct (decide (task_id = run_task_id r)) as [->|Hne].
           ++ rewrite lookup_insert_eq, decide_True; [done|]. left.
           ++ rewrite lookup_insert_ne, decide_False; [done| |done].
              intros [?|?]%elem_of_cons; done.
      * intros [t i]. rewrite Hjobs.
        cbn [TaskScheduler.retry_jobs fst snd]. rewrite fmap_cons.
        destruct (decide (t ∈ run_task_id <$> runs ∧ i = 1)) as [Hin|Hin].
        -- destruct Hin as [Hin ->].
           rewrite decide_True; [done|]. split; [by right|done].
        -- destruct (decide ((t, i) = (run_task_id r, 1))) as [[= -> ->]|Hne].
           ++ rewrite lookup_insert_eq, decide_True; [done|]. split; [left|done].
           ++ rewrite lookup_insert_ne, decide_False; [done| |done].
              intros [[->|?]%elem_of_cons ->]; [done|tauto].
Qed.

Lemma failing_runs_are_first_attempts_witness :
  ∃ s',
    execute_tasks 3 10 10 90
      [Run 5000000 5000001 5000002 5000003 [];
       Run 65000000 65000001 65000002 65000003 []]
      (two_category_store, initial_state)
    = Ok ([false; false], (two_category_store, s'))
    ∧ TaskScheduler.notifications s' = [].
Proof.
  destruct (failing_runs_are_first_attempts 3 10 10 90
    [Run 5000000 5000001 5000002 5000003 [];
     Run 65000000 65000001 65000002 65000003 []]
    two_category_store initial_state) as (s' & H & Hn & _).
  - lia.
  - vm_compute. repeat constructor; set_solver.
  - repeat constructor.
  - repeat constructor.
  - exists s'. split; [exact H|exact Hn].
Defined.

(** * Further properties of the diff *)

Lemma require_columns_cases (df : list record) (cols : list string) :
  (Pandas.require_columns df cols = Ok tt
   ∧ Forall (λ c, Pandas.has_column df c = true) cols)
  ∨ ∃ missing, Pandas.require_columns df cols = Raise (KeyError missing).
Proof.
  unfold Pandas.require_columns, Pandas.missing_columns.
  destruct (List.filter _ cols) as [|c m] eqn:E; [left|right; by eexists].
  split; [done|]. apply Forall_forall. intros c Hc.
  destruct (Pandas.has_column df c) eqn:Hcol; [done|].
  assert (c ∈ List.filter (λ c, negb (Pandas.has_column df c)) cols) as Hin
    by (apply elem_of_List_filter; by rewrite Hcol).
  rewrite E in Hin. by apply not_elem_of_nil in Hin.
Qed.

Lemma calculate_changes_Ok thr current_data previous_data rep :
  ReportGenerator._calculate_changes thr current_data previous_data = Ok rep →
  ∃ merged,
    ReportGenerator.merged_changes current_data previous_data = Ok merged
    ∧ rep = ReportGenerator.Changes
              (length merged)
              (length (List.filter (λ m, 0 <? Common.change m) merged))
              (length (List.filter (λ m, Common.change m <? 0) merged))
              (length (List.filter (λ m, Common.change m =? 0) merged))
              (List.filter (Common.significant thr) merged).
Proof.
  unfold ReportGenerator._calculate_changes.
  repeat match goal with
  | |- context [Pandas.require_columns ?df ?cols] =>
      destruct (require_columns_cases df cols) as [[-> _]|[? ->]];
        [simpl|done]
  end.
  destruct (ReportGenerator.merged_changes _ _) as [merged|]; [|done].
  simpl. intros [= <-]. by eexists.
Qed.

Lemma List_filter_length_le {A} (p : A → bool) (l : list A) :
  (length (List.filter p l) ≤ length l)%nat.
Proof.
  induction l as [|x l IH]; [done|]. simpl. destruct (p x); simpl; lia.
Qed.

Lemma sign_partition {A} (f : A → Z) (l : list A) :
  (length (List.filter (λ m, (0 <? f m)%Z) l)
   + length (List.filter (λ m, (f m <? 0)%Z) l)
   + length (List.filter (λ m, (f m =? 0)%Z) l) = length l)%nat.
Proof.
  induction l as [|x l IH]; [done|]. simpl.
  destruct (Z.ltb_spec 0 (f x)), (Z.ltb_spec (f x) 0), (Z.eqb_spec (f x) 0);
    simpl; lia.
Qed.

(** X8. In the report of [_calculate_changes] the counts of increased,
    decreased and unchanged rows add up to [total_items], and the
    significant changes are at most as many. *)
Theorem calculate_changes_counts thr current_data previous_data rep :
  ReportGenerator._calculate_changes thr current_data previous_data = Ok rep →
  (ReportGenerator.increased rep + ReportGenerator.decreased rep
   + ReportGenerator.unchanged rep = ReportGenerator.total_items rep)%nat
  ∧ (length (ReportGenerator.significant_changes rep)
     ≤ ReportGenerator.total_items rep)%nat.
Proof.
  intros (merged & _ & ->)%calculate_changes_Ok. simpl. split.
  - apply sign_partition.
  - apply List_filter_length_le.
Qed.

Lemma calculate_changes_counts_witness :
  ∃ rep,
    ReportGenerator._calculate_changes 10
      [inventory_record 1 "K-100" "Kabelbinder" "Kabel" "aktiv" 4 "A";
       inventory_record 2 "K-200" "Litze" "Kabel" "aktiv" 9 "A"]
      [inventory_record 1 "K-100" "Kabelbinder" "Kabel" "aktiv" 4 "A";
       inventory_record 3 "K-300" "Klemme" "Kabel" "aktiv" 2 "A"]
    = Ok rep
    ∧ (ReportGenerator.increased rep + ReportGenerator.decreased rep
       + ReportGenerator.unchanged rep = ReportGenerator.total_items rep)%nat.
Proof.
  eexists. split; [vm_compute; reflexivity|].
  eapply (calculate_changes_counts 10
    [inventory_record 1 "K-100" "Kabelbinder" "Kabel" "aktiv" 4 "A";
     inventory_record 2 "K-200" "Litze" "Kabel" "aktiv" 9 "A"]
    [inventory_record 1 "K-100" "Kabelbinder" "Kabel" "aktiv" 4 "A";
     inventory_record 3 "K-300" "Klemme" "Kabel" "aktiv" 2 "A"]).
  vm_compute. reflexivity.
Defined.

Lemma List_filter_sublist {A} (p1 p2 : A → bool) (l : list A) :
  (∀ x, p2 x = true → p1 x = true) →
  List.filter p2 l `sublist_of` List.filter p1 l.
Proof.
  intros Himp. induction l as [|x l IH]; [done|]. simpl.
  destruct (p2 x) eqn:H2.
  - rewrite (Himp x H2). by apply sublist_skip.
  - destruct (p1 x); [by apply sublist_cons|done].
Qed.

Lemma significant_monotone {L R} (thr1 thr2 : Z)
    (row : Common.change_row L R) :
  thr1 ≤ thr2 → Common.significant thr2 row = true →
  Common.significant thr1 row = true.
Proof.
  unfold Common.significant. rewrite !Qle_bool_iff. intros Hle H2.
  eapply Qle_trans; [|exact H2]. by rewrite <- Zle_Qle.
Qed.

Lemma significant_nonpositive {L R} (thr : Z) (row : Common.change_row L R) :
  thr ≤ 0 → Common.significant thr row = true.
Proof.
  unfold Common.significant. rewrite Qle_bool_iff. intros Hle.
  eapply Qle_trans; [|apply Qabs_nonneg].
  change 0%Q with (inject_Z 0). by rewrite <- Zle_Qle.
Qed.

(** X9. Raising the threshold never adds a significant change: the
    significant rows for the higher threshold are a sublist of those for
    the lower one, while [total_items] stays the same; with a threshold of
    0 or less every merged row is significant. *)
Theorem threshold_monotone thr1 thr2 current_data previous_data rep1 rep2 :
  thr1 ≤ thr2 →
  ReportGenerator._calculate_changes thr1 current_data previous_data
  = Ok rep1 →
  ReportGenerator._calculate_changes thr2 current_data previous_data
  = Ok rep2 →
  ReportGenerator.significant_changes rep2
    `sublist_of` ReportGenerator.significant_changes rep1
  ∧ ReportGenerator.total_items rep1 = ReportGenerator.total_items rep2
  ∧ (thr1 ≤ 0 →
     length (ReportGenerator.significant_changes rep1)
     = ReportGenerator.total_items rep1).
Proof.
  intros Hle (merged & Hm & ->)%calculate_changes_Ok
    (merged' & Hm' & ->)%calculate_changes_Ok.
  rewrite Hm in Hm'. injection Hm' as <-. simpl. split_and!.
  - apply List_filter_sublist. intros row. by apply significant_monotone.
  - done.
  - intros H0. f_equal. apply List_filter_all, Forall_forall.
    intros row _. by apply significant_nonpositive.
Qed.

Lemma threshold_monotone_witness :
  ∃ rep1 rep2,
    ReportGenerator._calculate_changes 10
      [inventory_record 1 "K-100" "Kabelbinder" "Kabel" "aktiv" 4 "A"]
      [inventory_record 1 "K-100" "Kabelbinder" "Kabel" "aktiv" 5 "A"]
    = Ok rep1
    ∧ ReportGenerator._calculate_changes 50
        [inventory_record 1 "K-100" "Kabelbinder" "Kabel" "aktiv" 4 "A"]
        [inventory_record 1 "K-100" "Kabelbinder" "Kabel" "aktiv" 5 "A"]
      = Ok rep2
    ∧ ReportGenerator.significant_changes rep2
        `sublist_of` ReportGenerator.significant_changes rep1.
Proof.
  eexists _, _. split; [vm_compute; reflexivity|].
  split; [vm_compute; reflexivity|].
  eapply (threshold_monotone 10 50
    [inventory_record 1 "K-100" "Kabelbinder" "Kabel" "aktiv" 4 "A"]
    [inventory_record 1 "K-100" "Kabelbinder" "Kabel" "aktiv" 5 "A"]).
  - lia.
  - vm_compute. reflexivity.
  - vm_compute. reflexivity.
Defined.

Lemma change_formula_at_zero {L R} (row : Common.change_row L R) :
  change_formula row → percent_at_zero row.
Proof.
  intros (qc & qp & Hqc & Hqp & Hch & Hpct). split.
  - intros H0. rewrite Hqp in H0. injection H0 as ->.
    rewrite Hpct, decide_True by done.
    unfold Qeq. simpl. lia.
  - intros H0 Hne. rewrite Hqc in H0. injection H0 as ->.
    assert (qp ≠ 0) as Hqp0 by (intros ->; by rewrite Hqp in Hne).
    assert (Common.change_percent row == -100)%Q as Heq.
    { rewrite Hpct, decide_False, Hch by done.
      unfold Qeq. destruct qp; [done|simpl; lia..]. }
    split; [done|]. intros thr. unfold Common.significant.
    rewrite Qle_bool_iff, Heq. change (Qabs (-100)) with (inject_Z 100).
    by rewrite <- Zle_Qle.
Qed.

(** X10. In the merged frame of either class a line that had quantity 0
    before has [change_percent] equal to 100 times its change, and a line
    whose quantity fell to 0 from another value has [change_percent] -100,
    so it is significant exactly when the threshold is at most 100. *)
Theorem percent_of_one_sided_lines (current_data previous_data : list record) :
  (∀ rows,
     InventoryTracker.merged_changes current_data previous_data = Ok rows →
     Forall percent_at_zero rows)
  ∧ (∀ rows,
       ReportGenerator.merged_changes current_data previous_data = Ok rows →
       Forall percent_at_zero rows).
Proof.
  split; intros rows Hrows; apply merged_formula in Hrows;
    (eapply Forall_impl; [exact Hrows|]); intros row;
    apply change_formula_at_zero.
Qed.

Lemma percent_of_one_sided_lines_witness :
  ∃ rows,
    ReportGenerator.merged_changes
      [inventory_record 1 "K-100" "Kabelbinder" "Kabel" "aktiv" 0 "A"]
      [inventory_record 1 "K-100" "Kabelbinder" "Kabel" "aktiv" 7 "A"]
    = Ok rows
    ∧ Forall percent_at_zero rows.
Proof.
  eexists. split; [vm_compute; reflexivity|].
  apply (proj2 (percent_of_one_sided_lines
    [inventory_record 1 "K-100" "Kabelbinder" "Kabel" "aktiv" 0 "A"]
    [inventory_record 1 "K-100" "Kabelbinder" "Kabel" "aktiv" 7 "A"])).
  vm_compute. reflexivity.
Defined.

(** *** Frames with unique keys *)

Lemma length_bind_singletons {A B} (f : A → list B) (l : list A) :
  (∀ x, x ∈ l → length (f x) = 1%nat) → length (l ≫= f) = length l.
Proof.
  induction l as [|x l IH]; intros H; [done|].
  rewrite bind_cons, length_app, H, IH; [done| |left].
  intros y Hy. apply H. by right.
Qed.

Lemma join_group_unique {L R} (kl : L → string) (kr : R → string)
    (ls : list L) (rs : list R) key :
  NoDup (kl <$> ls) → NoDup (kr <$> rs) →
  key ∈ Pandas.outer_keys kl kr ls rs →
  length (Pandas.join_group kl kr ls rs key) = 1%nat.
Proof.
  intros Hl Hr Hkey. unfold Pandas.join_group.
  destruct (rows_with_NoDup kl key ls Hl) as [El|[x El]];
    destruct (rows_with_NoDup kr key rs Hr) as [Er|[y Er]];
    rewrite El, Er; try done.
  apply rows_with_nil in El. apply rows_with_nil in Er.
  apply outer_keys_elem_of in Hkey as [Hkey|Hkey]; done.
Qed.

Lemma merge_outer_unique_length {L R} (kl : L → string) (kr : R → string)
    (ls : list L) (rs : list R) :
  NoDup (kl <$> ls) → NoDup (kr <$> rs) →
  length (Pandas.merge_outer kl kr ls rs)
  = length (remove_dups ((kl <$> ls) ++ (kr <$> rs))).
Proof.
  intros Hl Hr. unfold Pandas.merge_outer.
  rewrite length_bind_singletons.
  - unfold Pandas.outer_keys. by rewrite merge_sort_Permutation.
  - intros key Hkey. by apply join_group_unique.
Qed.

(** X11. When the keys are unique in both snapshots and all columns are
    there, [total_items] of [_calculate_changes] is the number of distinct
    keys of the two snapshots together: at least the size of either
    snapshot and at most the sum of both. *)
Theorem unique_keys_total_items thr (current_data previous_data : list record) :
  NoDup (Common.key_of <$> current_data) →
  NoDup (Common.key_of <$> previous_data) →
  columns_present current_data → columns_present previous_data →
  Forall numeric_quantity current_data →
  Forall numeric_quantity previous_data →
  ∃ rep,
    ReportGenerator._calculate_changes thr current_data previous_data = Ok rep
    ∧ ReportGenerator.total_items rep
      = length (remove_dups ((Common.key_of <$> current_data)
                             ++ (Common.key_of <$> previous_data)))
    ∧ (length current_data ≤ ReportGenerator.total_items rep)%nat
    ∧ (length previous_data ≤ ReportGenerator.total_items rep)%nat
    ∧ (ReportGenerator.total_items rep
       ≤ length current_data + length previous_data)%nat.
Proof.
  intros Hc Hp Hcc Hcp Hnc Hnp.
  destruct (merged_total ReportGenerator.cur_key ReportGenerator.prev_key
              ReportGenerator.cur_bestand ReportGenerator.prev_bestand
              ReportGenerator.select_current ReportGenerator.select_previous
              (λ _, eq_refl) (λ _, eq_refl) _ _ Hnc Hnp) as [rows Hrows].
  rewrite calculate_changes_present by done.
  unfold ReportGenerator.merged_changes. rewrite Hrows. simpl.
  eexists. split; [reflexivity|]. simpl.
  apply traverse_Ok, Forall2_length in Hrows. rewrite <- Hrows.
  rewrite merge_outer_unique_length;
    [|by rewrite <- list_fmap_compose..].
  rewrite <- !list_fmap_compose.
  change (ReportGenerator.cur_key ∘ ReportGenerator.select_current)
    with Common.key_of.
  change (ReportGenerator.prev_key ∘ ReportGenerator.select_previous)
    with Common.key_of.
  set (keys := (Common.key_of <$> current_data)
               ++ (Common.key_of <$> previous_data)).
  split; [done|]. split_and!.
  - rewrite <- (length_fmap Common.key_of current_data).
    apply submseteq_length, NoDup_submseteq; [done|].
    intros k Hk. apply elem_of_remove_dups, elem_of_app. by left.
  - rewrite <- (length_fmap Common.key_of previous_data).
    apply submseteq_length, NoDup_submseteq; [done|].
    intros k Hk. apply elem_of_remove_dups, elem_of_app. by right.
  - rewrite <- (length_fmap Common.key_of current_data),
      <- (length_fmap Common.key_of previous_data), <- length_app.
    apply submseteq_length, NoDup_submseteq; [apply NoDup_remove_dups|].
    intros k Hk. rewrite elem_of_remove_dups in Hk. exact Hk.
Qed.

Lemma unique_keys_total_items_witness :
  ∃ rep,
    ReportGenerator._calculate_changes 10
      [inventory_record 1 "K-100" "Kabelbinder" "Kabel" "aktiv" 4 "A";
       inventory_record 2 "K-200" "Litze" "Kabel" "aktiv" 9 "A"]
      [inventory_record 1 "K-100" "Kabelbinder" "Kabel" "aktiv" 4 "A";
       inventory_record 3 "K-300" "Klemme" "Kabel" "aktiv" 2 "A"]
    = Ok rep
    ∧ ReportGenerator.total_items rep = 3%nat.
Proof.
  destruct (unique_keys_total_items 10
    [inventory_record 1 "K-100" "Kabelbinder" "Kabel" "aktiv" 4 "A";
     inventory_record 2 "K-200" "Litze" "Kabel" "aktiv" 9 "A"]
    [inventory_record 1 "K-100" "Kabelbinder" "Kabel" "aktiv" 4 "A";
     inventory_record 3 "K-300" "Klemme" "Kabel" "aktiv" 2 "A"])
    as (rep & Hrep & Htotal & _).
  - vm_compute. repeat constructor; set_solver.
  - vm_compute. repeat constructor; set_solver.
  - repeat constructor.
  - repeat constructor.
  - repeat constructor; intros s; vm_compute; discriminate.
  - repeat constructor; intros s; vm_compute; discriminate.
  - exists rep. split; [exact Hrep|]. rewrite Htotal. reflexivity.
Defined.

(** * Further properties of the daily report *)

Lemma is_zero_inventory_active (item : record) :
  Common.is_zero_inventory item = true → Common.is_active item = true.
Proof.
  unfold Common.is_zero_inventory, Common.is_active.
  by intros [_ ?]%andb_true_iff.
Qed.

Lemma zero_inventory_le_active (data : list record) :
  (length (List.filter Common.is_zero_inventory data)
   ≤ length (List.filter Common.is_active data))%nat.
Proof.
  apply sublist_length, List_filter_sublist, is_zero_inventory_active.
Qed.

Lemma generate_daily_report_Some thr store d rep log :
  ReportGenerator.generate_daily_report thr store d = (Some rep, log) →
  let current_data := InventoryTracker.retrieve_historical_data store d in
  let previous_data :=
    InventoryTracker.retrieve_historical_data store (d - 1) in
  current_data ≠ []
  ∧ ReportGenerator.date rep = d
  ∧ ReportGenerator.total_articles rep = length current_data
  ∧ ReportGenerator.active_articles rep
    = length (List.filter Common.is_active current_data)
  ∧ ReportGenerator.zero_inventory rep
    = ReportGenerator.zero_entry_of <$>
        List.filter Common.is_zero_inventory current_data
  ∧ ReportGenerator.report_changes rep
    = (match previous_data with
       | [] => None
       | _ => match ReportGenerator._calculate_changes thr current_data
                      previous_data with
              | Ok ch => Some ch
              | Raise _ => None
              end
       end)
  ∧ (ReportGenerator.report_deactivations rep = None ↔ previous_data = []).
Proof.
  cbv zeta. unfold ReportGenerator.generate_daily_report.
  rewrite fold_left_append_if.
  destruct (InventoryTracker.retrieve_historical_data store d) as [|c cs];
    [done|].
  destruct (InventoryTracker.retrieve_historical_data store (d - 1))
    as [|p ps].
  - intros [= <- _]. by split_and!.
  - destruct (ReportGenerator._calculate_changes _ _ _); [|done].
    destruct (ReportGenerator._detect_deactivations _ _); [|done].
    intros [= <- _]. by split_and!.
Qed.

(** X12. Every daily report that is returned is the report of a non-empty
    snapshot: its date is the report date, [total_articles] is positive,
    the zero-stock entries are at most as many as [active_articles], which
    is at most [total_articles], and the report has [changes] and
    [deactivations] together, exactly when the previous day has a
    snapshot. *)
Theorem daily_report_counts thr store d rep log :
  ReportGenerator.generate_daily_report thr store d = (Some rep, log) →
  ReportGenerator.date rep = d
  ∧ (0 < ReportGenerator.total_articles rep)%nat
  ∧ (length (ReportGenerator.zero_inventory rep)
     ≤ ReportGenerator.active_articles rep
     ≤ ReportGenerator.total_articles rep)%nat
  ∧ (is_Some (ReportGenerator.report_changes rep)
     ↔ InventoryTracker.retrieve_historical_data store (d - 1) ≠ [])
  ∧ (is_Some (ReportGenerator.report_deactivations rep)
     ↔ InventoryTracker.retrieve_historical_data store (d - 1) ≠ []).
Proof.
  intros Hgen. pose proof Hgen as Hgen'.
  apply generate_daily_report_Some in Hgen
    as (Hcur & Hd & Ht & Ha & Hz & Hch & Hde).
  split_and!.
  - done.
  - rewrite Ht.
    destruct (InventoryTracker.retrieve_historical_data store d);
      [done|simpl; lia].
  - rewrite Hz, length_fmap, Ha. apply zero_inventory_le_active.
  - rewrite Ha, Ht. apply List_filter_length_le.
  - revert Hgen'. unfold ReportGenerator.generate_daily_report.
    destruct (InventoryTracker.retrieve_historical_data store d); [done|].
    destruct (InventoryTracker.retrieve_historical_data store (d - 1)).
    + intros [= <- _]. simpl. split; [by intros [? [=]]|done].
    + destruct (ReportGenerator._calculate_changes _ _ _); [|done].
      destruct (ReportGenerator._detect_deactivations _ _); [|done].
      intros [= <- _]. simpl. split; [done|eauto].
  - rewrite <- not_eq_None_Some. by rewrite Hde.
Qed.

Lemma daily_report_counts_witness :
  ∃ rep log,
    ReportGenerator.generate_daily_report 10 two_category_store 99
    = (Some rep, log)
    ∧ (length (ReportGenerator.zero_inventory rep)
       ≤ ReportGenerator.active_articles rep
       ≤ ReportGenerator.total_articles rep)%nat.
Proof.
  eexists _, _. split; [vm_compute; reflexivity|].
  eapply (daily_report_counts 10 two_category_store 99).
  vm_compute. reflexivity.
Defined.

Lemma calculate_changes_missing_column thr current_data previous_data c :
  c ∈ ["artikel_id"; "lager_id"; "artikelnummer"; "bezeichnung"; "bestand";
       "status"] →
  Pandas.has_column current_data c = false →
  ∃ missing,
    ReportGenerator._calculate_changes thr current_data previous_data
    = Raise (KeyError missing).
Proof.
  intros Hc Hmiss. unfold ReportGenerator._calculate_changes.
  destruct (require_columns_cases current_data ["artikel_id"])
    as [[-> H1]|[m ->]]; [simpl|by eexists].
  destruct (require_columns_cases current_data ["lager_id"])
    as [[-> H2]|[m ->]]; [simpl|by eexists].
  destruct (require_columns_cases previous_data ["artikel_id"])
    as [[-> _]|[m ->]]; [simpl|by eexists].
  destruct (require_columns_cases previous_data ["lager_id"])
    as [[-> _]|[m ->]]; [simpl|by eexists].
  destruct (require_columns_cases current_data
              ["artikelnummer"; "bezeichnung"; "bestand"; "status"])
    as [[-> H3]|[m ->]]; [simpl|by eexists].
  exfalso.
  pose proof (Forall_app_2 _ _ _ H1 (Forall_app_2 _ _ _ H2 H3)) as Hall.
  rewrite Forall_forall in Hall. rewrite Hall in Hmiss; [done|].
  simpl. exact Hc.
Qed.

(** X13. When both days have a snapshot but a column that the diff reads
    is absent from the current one, [_calculate_changes] raises KeyError
    and [generate_daily_report] returns no report at all;
    [_detect_deactivations] is not called. *)
Theorem daily_report_lost_on_missing_column thr store d c :
  InventoryTracker.retrieve_historical_data store d ≠ [] →
  InventoryTracker.retrieve_historical_data store (d - 1) ≠ [] →
  c ∈ ["artikel_id"; "lager_id"; "artikelnummer"; "bezeichnung"; "bestand";
       "status"] →
  Pandas.has_column (InventoryTracker.retrieve_historical_data store d) c
  = false →
  ReportGenerator.generate_daily_report thr store d
  = (None,
     [ReportGenerator.call_retrieve_historical_data d;
      ReportGenerator.call_retrieve_historical_data (d - 1);
      ReportGenerator.call_calculate_changes]).
Proof.
  intros Hcur Hprev Hc Hmiss.
  unfold ReportGenerator.generate_daily_report.
  destruct (calculate_changes_missing_column thr
              (InventoryTracker.retrieve_historical_data store d)
              (InventoryTracker.retrieve_historical_data store (d - 1))
              c Hc Hmiss) as [m Hraise].
  destruct (InventoryTracker.retrieve_historical_data store d); [done|].
  destruct (InventoryTracker.retrieve_historical_data store (d - 1)); [done|].
  by rewrite Hraise.
Qed.

Lemma daily_report_lost_on_missing_column_witness :
  ReportGenerator.generate_daily_report 10
    (<[100 := [record_without_bestand]]> two_category_store) 100
  = (None,
     [ReportGenerator.call_retrieve_historical_data 100;
      ReportGenerator.call_retrieve_historical_data (100 - 1);
      ReportGenerator.call_calculate_changes]).
Proof.
  apply (daily_report_lost_on_missing_column 10
           (<[100 := [record_without_bestand]]> two_category_store) 100
           "bestand").
  - vm_compute. discriminate.
  - vm_compute. discriminate.
  - set_solver.
  - reflexivity.
Defined.

(** * Further properties of the status detector *)

Lemma detect_deactivations_rows (current_data previous_data : list record)
    rows :
  InventoryTracker.detect_deactivations current_data previous_data = Ok rows
  ∨ ReportGenerator._detect_deactivations current_data previous_data
    = Ok rows →
  rows = [] ∨ rows = Common.deactivated current_data previous_data.
Proof.
  intros [H|H].
  - unfold InventoryTracker.detect_deactivations in H.
    destruct (_ || _); [left; by injection H|].
    destruct (Pandas.require_columns current_data _); [|done].
    destruct (Pandas.require_columns previous_data _); [|done].
    right. by injection H.
  - unfold ReportGenerator._detect_deactivations in H.
    destruct (Pandas.require_columns current_data _); [|done].
    destruct (Pandas.require_columns previous_data _); [|done].
    right. by injection H.
Qed.

(** X14. Every row that a deactivation detector returns belongs to a row
    of the current snapshot that is inactive and to a row of the previous
    snapshot with the same [artikel_id] that was active; an article of the
    previous snapshot whose id does not occur in the current snapshot is
    never reported, whatever its status was. *)
Theorem deactivations_need_current_row
    (current_data previous_data : list record) rows :
  InventoryTracker.detect_deactivations current_data previous_data = Ok rows
  ∨ ReportGenerator._detect_deactivations current_data previous_data
    = Ok rows →
  (∀ m, m ∈ rows →
     ∃ c p, c ∈ current_data ∧ p ∈ previous_data
       ∧ c !! "artikel_id" = Common.artikel_id m
       ∧ p !! "artikel_id" = Common.artikel_id m
       ∧ c !! "status" = Some (VStr "inaktiv")
       ∧ p !! "status" = Some (VStr "aktiv"))
  ∧ (∀ p, p ∈ previous_data →
       (∀ c, c ∈ current_data → c !! "artikel_id" ≠ p !! "artikel_id") →
       ∀ m, m ∈ rows → Common.artikel_id m ≠ p !! "artikel_id").
Proof.
  intros Hrows%detect_deactivations_rows.
  assert (∀ m, m ∈ rows →
            m ∈ Common.deactivated current_data previous_data) as Hin.
  { destruct Hrows as [->| ->]; [|done]. by intros m ?%not_elem_of_nil. }
  split.
  - intros m (c & p & Hc & Hp & Hk & Hps & Hcs & ->)%Hin%deactivated_elem_of.
    exists c, p. simpl. by split_and!.
  - intros p Hp Habsent m
      (c & p' & Hc & Hp' & Hk & Hps & Hcs & ->)%Hin%deactivated_elem_of.
    simpl. by apply Habsent.
Qed.

Lemma deactivations_need_current_row_witness :
  ∀ m,
    m ∈ [Common.Deactivation (Some (VInt 1)) (Some (VStr "K-100"))
           (Some (VStr "Kabelbinder")) (Some (VStr "inaktiv"))
           (Some (VStr "aktiv"))] →
    Common.artikel_id m ≠ Some (VInt 2).
Proof.
  pose proof (deactivations_need_current_row
    [inventory_record 1 "K-100" "Kabelbinder" "Kabel" "inaktiv" 0 "A"]
    [inventory_record 1 "K-100" "Kabelbinder" "Kabel" "aktiv" 3 "A";
     inventory_record 2 "K-200" "Litze" "Kabel" "aktiv" 7 "A"]
    [Common.Deactivation (Some (VInt 1)) (Some (VStr "K-100"))
       (Some (VStr "Kabelbinder")) (Some (VStr "inaktiv"))
       (Some (VStr "aktiv"))]) as H.
  destruct H as [_ H]; [right; reflexivity|].
  apply (H (inventory_record 2 "K-200" "Litze" "Kabel" "aktiv" 7 "A")).
  - set_solver.
  - intros c ->%list_elem_of_singleton. vm_compute. discriminate.
Defined.
